(** * Graph-based financial fraud detection: the [FraudDetector] engine

    A shallow embedding of [src/fraud_detector.py] (class [FraudDetector])
    and the properties of its three detectors: money-laundering cycles,
    smurfing patterns and network anomalies.

    Conventions of the embedding.
    - Python numbers (amounts, scores, parameters) are exact rationals [Q];
      the rounding of binary floating point is not modelled.  The square
      root used by [numpy.std] is a parameter [np_sqrt] of the development.
    - A [datetime] is the number of microseconds since the epoch, a [Z];
      [total_seconds] divides a difference of instants by [10^6].
    - A Python exception is a [Raise] result; methods of the class return
      their outcome together with the detector after the call.
    - The helpers of [utils.py] and the [networkx] services they wrap are
      not part of the analysed file: they are parameters of the section
      (or, for [find_cycles_in_graph], modelled from the specification). *)

From Stdlib Require Import ZArith QArith Qminmax Lqa List String Bool Lia.
From Stdlib Require Import Sorting.Sorted Permutation.
From stdpp Require Import gmap strings.

Local Open Scope string_scope.
Local Open Scope list_scope.

(* ================================================================= *)
(** ** Exceptions *)

Inductive exn : Type :=
| ValueError
| KeyError (key : string)
| ZeroDivisionError.

Inductive result (A : Type) : Type :=
| Ok (a : A)
| Raise (e : exn).
Arguments Ok {A} a.
Arguments Raise {A} e.

#[global] Instance result_ret : MRet result := fun A a => Ok a.
#[global] Instance result_bind : MBind result := fun A B f m =>
  match m with
  | Ok a => f a
  | Raise e => Raise e
  end.

(* ================================================================= *)
(** ** Python numbers *)

(** [x < y] on numbers. *)
Definition Qltb (x y : Q) : bool := negb (Qle_bool y x).

(** [bool(v)] for a number: everything but zero is true. *)
Definition truthy (v : Q) : bool := negb (Qeq_bool v 0).

(** [min(a, b)] and [max(a, b)]: the first argument wins ties. *)
Definition py_min (a b : Q) : Q := if Qltb b a then b else a.
Definition py_max (a b : Q) : Q := if Qltb a b then b else a.

(** [a / b] on Python numbers. *)
Definition py_div (a b : Q) : result Q :=
  if Qeq_bool b 0 then Raise ZeroDivisionError else Ok (a / b)%Q.

(** [len(l)] as a number. *)
Definition len {A : Type} (l : list A) : Q := inject_Z (Z.of_nat (length l)).

(** [sum(l)]. *)
Definition py_sum (l : list Q) : Q := fold_left Qplus l 0%Q.

(** [override or default]. *)
Definition py_or (override : option Q) (default : result Q) : result Q :=
  match override with
  | Some v => if truthy v then Ok v else default
  | None => default
  end.

(** [d[key]] on a dictionary of numbers. *)
Definition getitem (d : gmap string Q) (key : string) : result Q :=
  match d !! key with
  | Some v => Ok v
  | None => Raise (KeyError key)
  end.

(** [max(l, key=key)] on the non-empty list [x :: l]: the first maximal
    element. *)
Fixpoint py_max_by {A : Type} (key : A -> Z) (best : A) (l : list A) : A :=
  match l with
  | [] => best
  | x :: l' => py_max_by key (if (key best <? key x)%Z then x else best) l'
  end.

(** [l.sort(key=...)]: a stable sort.  [before y x] says that [y] has to
    come strictly before [x]; elements that are not ordered by [before]
    keep the order they had in [l]. *)
Fixpoint py_insert {A : Type} (before : A -> A -> bool) (x : A)
    (l : list A) : list A :=
  match l with
  | [] => [x]
  | y :: l' => if before y x then y :: py_insert before x l' else x :: y :: l'
  end.

Fixpoint py_sort {A : Type} (before : A -> A -> bool) (l : list A) : list A :=
  match l with
  | [] => []
  | x :: l' => py_insert before x (py_sort before l')
  end.

(** [l.sort(key=key)] with an instant as key. *)
Definition sort_by_timestamp {A : Type} (key : A -> Z) : list A -> list A :=
  py_sort (fun y x => (key y <? key x)%Z).

(** [l.sort(key=key, reverse=True)] with a number as key. *)
Definition sort_by_risk {A : Type} (key : A -> Q) : list A -> list A :=
  py_sort (fun y x => Qltb (key x) (key y)).

(** [timedelta.total_seconds() / 3600] for a difference of instants. *)
Definition total_seconds (d : Z) : Q := (inject_Z d / 1000000)%Q.
Definition hours (d : Z) : Q := (total_seconds d / 3600)%Q.

(* ================================================================= *)
(** ** Data model *)

Record Transaction : Type := {
  transaction_id : string;
  sender_id : string;
  receiver_id : string;
  amount : Q;
  timestamp : Z
}.

(** The part of a [networkx.DiGraph] the detectors look at. *)
Record DiGraph : Type := {
  nodes : list string;
  edges : list (string * string)
}.

Record Metrics : Type := {
  degree_centrality : Q;
  betweenness_centrality : Q;
  pagerank : Q
}.

Module CycleFinding.
Record t : Type := {
  cycle : list string;
  length : nat;
  total_amount : Q;
  transactions : list Transaction;
  time_span_hours : Q;
  amounts : list Q;
  risk_score : Q
}.
End CycleFinding.

Module SmurfingFinding.
Record t : Type := {
  pivot_account : string;
  total_amount : Q;
  num_transactions : nat;
  avg_amount : Q;
  transactions : list Transaction;
  coefficient_of_variation : Q;
  risk_score : Q
}.
End SmurfingFinding.

(** A candidate window of [_analyze_smurfing_pattern]. *)
Module Pattern.
Record t : Type := {
  transactions : list Transaction;
  amounts : list Q;
  cv : Q
}.
End Pattern.

(** The dictionaries of [detect_network_anomalies], by ['anomaly_type']. *)
Inductive NetworkAnomaly : Type :=
| Hub (account : string) (centrality_metrics : Metrics) (threshold : Q)
      (risk_score : Q)
| Burst (account : string) (num_transactions : nat) (time_window_hours : Q)
        (transactions : list Transaction) (risk_score : Q)
| IsolatedCommunity (community : list string)
                    (internal_transactions external_transactions : nat)
                    (internal_ratio : Q) (risk_score : Q).

Definition anomaly_risk_score (a : NetworkAnomaly) : Q :=
  match a with
  | Hub _ _ _ r => r
  | Burst _ _ _ _ r => r
  | IsolatedCommunity _ _ _ _ r => r
  end.

Record DetectionResults : Type := {
  money_laundering_cycles : list CycleFinding.t;
  smurfing_patterns : list SmurfingFinding.t;
  network_anomalies : list NetworkAnomaly
}.

Record FraudDetector : Type := {
  transactions : list Transaction;
  graph : option DiGraph;
  detection_results : DetectionResults;
  detection_params : gmap string Q
}.

(** [FraudDetector.__init__]. *)
Definition default_params : gmap string Q :=
  <["cycle_min_length" := 3%Q]>
  (<["cycle_max_length" := 10%Q]>
  (<["cycle_time_window_hours" := 72%Q]>
  (<["smurfing_threshold" := 10000%Q]>
  (<["smurfing_min_transactions" := 5%Q]>
  (<["smurfing_time_window_hours" := 48%Q]>
  (<["smurfing_amount_ratio" := 0.8%Q]>
  (<["anomaly_degree_threshold" := 0.1%Q]>
  (<["anomaly_burst_threshold" := 20%Q]>
  (<["anomaly_burst_window_hours" := 2%Q]>
  (<["anomaly_isolation_threshold" := 0.7%Q]> ∅)))))))))).

Definition init : FraudDetector :=
  {| transactions := [];
     graph := None;
     detection_results :=
       {| money_laundering_cycles := [];
          smurfing_patterns := [];
          network_anomalies := [] |};
     detection_params := default_params |}.

(** Assignments to the attributes of [self]. *)
Definition set_money_laundering_cycles (self : FraudDetector)
    (l : list CycleFinding.t) : FraudDetector :=
  {| transactions := transactions self;
     graph := graph self;
     detection_results :=
       {| money_laundering_cycles := l;
          smurfing_patterns := smurfing_patterns (detection_results self);
          network_anomalies := network_anomalies (detection_results self) |};
     detection_params := detection_params self |}.

Definition set_smurfing_patterns (self : FraudDetector)
    (l : list SmurfingFinding.t) : FraudDetector :=
  {| transactions := transactions self;
     graph := graph self;
     detection_results :=
       {| money_laundering_cycles :=
            money_laundering_cycles (detection_results self);
          smurfing_patterns := l;
          network_anomalies := network_anomalies (detection_results self) |};
     detection_params := detection_params self |}.

Definition set_network_anomalies (self : FraudDetector)
    (l : list NetworkAnomaly) : FraudDetector :=
  {| transactions := transactions self;
     graph := graph self;
     detection_results :=
       {| money_laundering_cycles :=
            money_laundering_cycles (detection_results self);
          smurfing_patterns := smurfing_patterns (detection_results self);
          network_anomalies := l |};
     detection_params := detection_params self |}.

Definition set_param (self : FraudDetector) (key : string) (value : Q)
    : FraudDetector :=
  {| transactions := transactions self;
     graph := graph self;
     detection_results := detection_results self;
     detection_params := <[key := value]> (detection_params self) |}.

(** [load_transactions] followed by [build_graph], the graph being the one
    the builder of [utils.py] returns. *)
Definition loaded (txs : list Transaction) (g : DiGraph)
    (params : gmap string Q) : FraudDetector :=
  {| transactions := txs;
     graph := Some g;
     detection_results :=
       {| money_laundering_cycles := [];
          smurfing_patterns := [];
          network_anomalies := [] |};
     detection_params := params |}.

(* ================================================================= *)
(** ** The detectors *)

Section Detectors.

(** [numpy.sqrt], as used by [numpy.std]. *)
Variable np_sqrt : Q -> Q.

(** [networkx.simple_cycles]: the simple directed cycles of the graph,
    each as the list of its nodes. *)
Variable simple_cycles : DiGraph -> list (list string).

(** [utils.compute_centrality_metrics]: the dictionary from accounts to
    their metrics, as the list of its items. *)
Variable compute_centrality_metrics : DiGraph -> list (string * Metrics).

(** [utils.detect_communities]: a list of sets of accounts. *)
Variable detect_communities : DiGraph -> list (gset string).

(** [numpy.mean] and [numpy.std]. *)
Definition np_mean (l : list Q) : Q := (py_sum l / len l)%Q.

Definition np_std (l : list Q) : Q :=
  np_sqrt (np_mean (map (fun x => (x - np_mean l) * (x - np_mean l))%Q l)).

(** Modelled from the spec: [find_cycles_in_graph] of [utils.py], which
    is not among the analysed sources.  Section 4.3, step 1: "enumerate
    all simple directed cycles in the graph with length >=
    cycle_min_length". *)
Definition find_cycles_in_graph (g : DiGraph) (min_length : Q)
    : list (list string) :=
  List.filter (fun c => Qle_bool min_length (len c)) (simple_cycles g).

(* --------------------------------------------------------------- *)
(** *** Money-laundering cycles *)

Definition _calculate_cycle_risk_score (cycle : list string)
    (transactions : list Transaction) (total_amount : Q)
    (amounts : list Q) (time_span : Q) : Q :=
  let score := 0%Q in
  let amount_score := py_min (total_amount / 100000) 1 in
  let score := (score + amount_score * 0.3)%Q in
  let score :=
    if Qltb 1 (len amounts) then
      let amount_std := np_std amounts in
      let amount_mean := np_mean amounts in
      let variation_ratio :=
        if Qltb 0 amount_mean then (amount_std / amount_mean)%Q else 1%Q in
      let variation_score := py_max 0 (1 - variation_ratio) in
      (score + variation_score * 0.25)%Q
    else score in
  let time_score := py_max 0 (1 - time_span / 72) in
  let score := (score + time_score * 0.25)%Q in
  let length_score := py_min (len cycle / 10) 1 in
  let score := (score + length_score * 0.2)%Q in
  py_min score 1.

(** The transactions from [sender] to [receiver], in the order of
    [self.transactions]. *)
Definition txs_between (self : FraudDetector) (sender receiver : string)
    : list Transaction :=
  List.filter
    (fun tx => String.eqb (sender_id tx) sender
               && String.eqb (receiver_id tx) receiver)
    (transactions self).

(** The loop [for i in range(len(cycle))] of [_analyze_cycle]; [None] is
    the early [return None] of an incomplete cycle. *)
Fixpoint cycle_edges_loop (self : FraudDetector) (cycle : list string)
    (indices : list nat)
    (cycle_transactions : list Transaction) (total_amount : Q)
    (amounts : list Q) : option (list Transaction * Q * list Q) :=
  match indices with
  | [] => Some (cycle_transactions, total_amount, amounts)
  | i :: indices' =>
      let sender := nth i cycle "" in
      let receiver := nth ((i + 1) mod length cycle) cycle "" in
      match txs_between self sender receiver with
      | [] => None
      | tx0 :: txs =>
          let tx := py_max_by timestamp tx0 txs in
          cycle_edges_loop self cycle indices'
            (cycle_transactions ++ [tx])
            (total_amount + amount tx)%Q
            (amounts ++ [amount tx])
      end
  end.

Definition _analyze_cycle (self : FraudDetector) (cycle : list string)
    (time_window_hours : Q) : result (option CycleFinding.t) :=
  match cycle_edges_loop self cycle (seq 0 (length cycle)) [] 0%Q [] with
  | None => Ok None
  | Some (cycle_transactions, total_amount, amounts) =>
      match map timestamp cycle_transactions with
      | [] => Raise ValueError
      | t0 :: ts =>
          let time_span :=
            hours (fold_left Z.max ts t0 - fold_left Z.min ts t0) in
          if Qltb time_window_hours time_span then Ok None
          else
            let risk_score :=
              _calculate_cycle_risk_score cycle cycle_transactions
                total_amount amounts time_span in
            Ok (Some {| CycleFinding.cycle := cycle;
                        CycleFinding.length := length cycle;
                        CycleFinding.total_amount := total_amount;
                        CycleFinding.transactions := cycle_transactions;
                        CycleFinding.time_span_hours := time_span;
                        CycleFinding.amounts := amounts;
                        CycleFinding.risk_score := risk_score |})
      end
  end.

(** The loop [for cycle in all_cycles]. *)
Fixpoint cycles_loop (self : FraudDetector) (max_length time_window_hours : Q)
    (all_cycles : list (list string)) (detected_cycles : list CycleFinding.t)
    : result (list CycleFinding.t) :=
  match all_cycles with
  | [] => Ok detected_cycles
  | cycle :: all_cycles' =>
      if truthy max_length && Qltb max_length (len cycle) then
        cycles_loop self max_length time_window_hours all_cycles'
          detected_cycles
      else
        cycle_info ← _analyze_cycle self cycle time_window_hours;
        match cycle_info with
        | Some info =>
            cycles_loop self max_length time_window_hours all_cycles'
              (detected_cycles ++ [info])
        | None =>
            cycles_loop self max_length time_window_hours all_cycles'
              detected_cycles
        end
  end.

Definition detect_money_laundering_cycles (self : FraudDetector)
    (min_length max_length time_window_hours : option Q)
    : result (list CycleFinding.t) * FraudDetector :=
  match graph self with
  | None => (Raise ValueError, self)
  | Some g =>
      let outcome :=
        min_length ←
          py_or min_length
            (getitem (detection_params self) "cycle_min_length");
        max_length ←
          py_or max_length
            (getitem (detection_params self) "cycle_max_length");
        time_window_hours ←
          py_or time_window_hours
            (getitem (detection_params self) "cycle_time_window_hours");
        let all_cycles := find_cycles_in_graph g min_length in
        detected_cycles ←
          cycles_loop self max_length time_window_hours all_cycles [];
        mret (sort_by_risk CycleFinding.risk_score detected_cycles) in
      match outcome with
      | Ok detected_cycles =>
          (Ok detected_cycles,
           set_money_laundering_cycles self detected_cycles)
      | Raise e => (Raise e, self)
      end
  end.

(* --------------------------------------------------------------- *)
(** *** Smurfing *)

(** The inner loop [for j in range(i + 1, len(txs))] of the window
    scans: [rest] is [txs[i+1:]], the loop stops at the first transaction
    later than the window. *)
Fixpoint window_loop (window_start : Z) (time_window_hours : Q)
    (rest : list Transaction) (window_txs : list Transaction)
    : list Transaction :=
  match rest with
  | [] => window_txs
  | txj :: rest' =>
      let time_diff := hours (timestamp txj - window_start) in
      if Qltb time_window_hours time_diff then window_txs
      else
        window_loop window_start time_window_hours rest'
          (window_txs ++ [txj])
  end.

Definition _calculate_smurfing_risk_score (pivot_account : string)
    (pattern : Pattern.t) (total_amount avg_amount threshold : Q) : Q :=
  let score := 0%Q in
  let num_tx_score := py_min (len (Pattern.transactions pattern) / 20) 1 in
  let score := (score + num_tx_score * 0.3)%Q in
  let amount_score := py_min (total_amount / 200000) 1 in
  let score := (score + amount_score * 0.3)%Q in
  let threshold_proximity := (1 - avg_amount / threshold)%Q in
  let proximity_score := py_max 0 threshold_proximity in
  let score := (score + proximity_score * 0.2)%Q in
  let similarity_score := (1 - Pattern.cv pattern)%Q in
  let score := (score + similarity_score * 0.2)%Q in
  py_min score 1.

(** The loop [for i in range(len(incoming_txs))] of
    [_analyze_smurfing_pattern]; the argument is [incoming_txs[i:]]. *)
Fixpoint smurfing_windows_loop (self : FraudDetector)
    (time_window_hours amount_ratio : Q)
    (incoming_txs : list Transaction) (patterns : list Pattern.t)
    : result (list Pattern.t) :=
  match incoming_txs with
  | [] => Ok patterns
  | txi :: rest =>
      let window_txs :=
        window_loop (timestamp txi) time_window_hours rest [txi] in
      smurfing_min_transactions ←
        getitem (detection_params self) "smurfing_min_transactions";
      let patterns :=
        if Qle_bool smurfing_min_transactions (len window_txs) then
          let amounts := map amount window_txs in
          let amount_mean := np_mean amounts in
          let amount_std := np_std amounts in
          if Qltb 0 amount_mean then
            let cv := (amount_std / amount_mean)%Q in
            if Qle_bool cv (1 - amount_ratio) then
              patterns ++ [{| Pattern.transactions := window_txs;
                              Pattern.amounts := amounts;
                              Pattern.cv := cv |}]
            else patterns
          else patterns
        else patterns in
      smurfing_windows_loop self time_window_hours amount_ratio rest
        patterns
  end.

Definition _analyze_smurfing_pattern (self : FraudDetector)
    (pivot_account : string) (incoming_txs : list Transaction)
    (threshold time_window_hours amount_ratio : Q)
    : result (option SmurfingFinding.t) :=
  let incoming_txs := sort_by_timestamp timestamp incoming_txs in
  patterns ←
    smurfing_windows_loop self time_window_hours amount_ratio
      incoming_txs [];
  match patterns with
  | [] => Ok None
  | p0 :: ps =>
      let best_pattern :=
        py_max_by
          (fun p => Z.of_nat (length (Pattern.transactions p))) p0 ps in
      let total_amount := py_sum (Pattern.amounts best_pattern) in
      let avg_amount := np_mean (Pattern.amounts best_pattern) in
      let risk_score :=
        _calculate_smurfing_risk_score pivot_account best_pattern
          total_amount avg_amount threshold in
      Ok (Some
        {| SmurfingFinding.pivot_account := pivot_account;
           SmurfingFinding.total_amount := total_amount;
           SmurfingFinding.num_transactions :=
             length (Pattern.transactions best_pattern);
           SmurfingFinding.avg_amount := avg_amount;
           SmurfingFinding.transactions :=
             Pattern.transactions best_pattern;
           SmurfingFinding.coefficient_of_variation :=
             Pattern.cv best_pattern;
           SmurfingFinding.risk_score := risk_score |})
  end.

(** The inbound transactions of [node] below the threshold. *)
Definition incoming_below (self : FraudDetector) (node : string)
    (threshold : Q) : list Transaction :=
  List.filter
    (fun tx => String.eqb (receiver_id tx) node
               && Qltb (amount tx) threshold)
    (transactions self).

(** The loop [for node in self.graph.nodes()]. *)
Fixpoint smurfing_nodes_loop (self : FraudDetector)
    (threshold min_transactions time_window_hours amount_ratio : Q)
    (graph_nodes : list string) (detected_patterns : list SmurfingFinding.t)
    : result (list SmurfingFinding.t) :=
  match graph_nodes with
  | [] => Ok detected_patterns
  | node :: graph_nodes' =>
      let incoming_txs := incoming_below self node threshold in
      if Qltb (len incoming_txs) min_transactions then
        smurfing_nodes_loop self threshold min_transactions
          time_window_hours amount_ratio graph_nodes' detected_patterns
      else
        pattern_info ←
          _analyze_smurfing_pattern self node incoming_txs threshold
            time_window_hours amount_ratio;
        match pattern_info with
        | Some info =>
            smurfing_nodes_loop self threshold min_transactions
              time_window_hours amount_ratio graph_nodes'
              (detected_patterns ++ [info])
        | None =>
            smurfing_nodes_loop self threshold min_transactions
              time_window_hours amount_ratio graph_nodes' detected_patterns
        end
  end.

Definition detect_smurfing (self : FraudDetector)
    (threshold min_transactions time_window_hours amount_ratio : option Q)
    : result (list SmurfingFinding.t) * FraudDetector :=
  match graph self with
  | None => (Raise ValueError, self)
  | Some g =>
      let outcome :=
        threshold ←
          py_or threshold
            (getitem (detection_params self) "smurfing_threshold");
        min_transactions ←
          py_or min_transactions
            (getitem (detection_params self) "smurfing_min_transactions");
        time_window_hours ←
          py_or time_window_hours
            (getitem (detection_params self) "smurfing_time_window_hours");
        amount_ratio ←
          py_or amount_ratio
            (getitem (detection_params self) "smurfing_amount_ratio");
        detected_patterns ←
          smurfing_nodes_loop self threshold min_transactions
            time_window_hours amount_ratio (nodes g) [];
        mret (sort_by_risk SmurfingFinding.risk_score detected_patterns) in
      match outcome with
      | Ok detected_patterns =>
          (Ok detected_patterns,
           set_smurfing_patterns self detected_patterns)
      | Raise e => (Raise e, self)
      end
  end.

(* --------------------------------------------------------------- *)
(** *** Network anomalies *)

Definition _calculate_hub_risk_score (account : string) (metrics : Metrics)
    (mean std : Q) : Q :=
  let score := 0%Q in
  let z_score :=
    if Qltb 0 std then ((degree_centrality metrics - mean) / std)%Q
    else 0%Q in
  let z_score := py_min z_score 5 in
  let score := (score + (z_score / 5) * 0.4)%Q in
  let betweenness_score :=
    py_min (betweenness_centrality metrics * 10) 1 in
  let score := (score + betweenness_score * 0.3)%Q in
  let pagerank_score := py_min (pagerank metrics * 10) 1 in
  let score := (score + pagerank_score * 0.3)%Q in
  py_min score 1.

(** The loop [for account, metrics in centrality_metrics.items()]. *)
Fixpoint hub_loop (degree_mean degree_std dynamic_threshold : Q)
    (items : list (string * Metrics)) (anomalies : list NetworkAnomaly)
    : list NetworkAnomaly :=
  match items with
  | [] => anomalies
  | (account, metrics) :: items' =>
      if Qltb dynamic_threshold (degree_centrality metrics) then
        let risk_score :=
          _calculate_hub_risk_score account metrics degree_mean
            degree_std in
        hub_loop degree_mean degree_std dynamic_threshold items'
          (anomalies ++ [Hub account metrics dynamic_threshold risk_score])
      else
        hub_loop degree_mean degree_std dynamic_threshold items' anomalies
  end.

(** [g] is [self.graph], which the caller has checked to be built. *)
Definition _detect_hub_anomalies (g : DiGraph) (degree_threshold : Q)
    : list NetworkAnomaly :=
  let anomalies := [] in
  let centrality_metrics := compute_centrality_metrics g in
  let degree_values :=
    map (fun item => degree_centrality (snd item)) centrality_metrics in
  match degree_values with
  | [] => anomalies
  | _ :: _ =>
      let degree_mean := np_mean degree_values in
      let degree_std := np_std degree_values in
      let dynamic_threshold :=
        py_max degree_threshold (degree_mean + 2 * degree_std) in
      hub_loop degree_mean degree_std dynamic_threshold centrality_metrics
        anomalies
  end.

Definition _calculate_burst_risk_score (account : string)
    (transactions : list Transaction) (threshold window_hours : Q)
    : result Q :=
  let score := 0%Q in
  ratio ← py_div (len transactions) (threshold * 2);
  let num_tx_score := py_min ratio 1 in
  let score := (score + num_tx_score * 0.5)%Q in
  density ← py_div (len transactions) window_hours;
  let density_score := py_min (density / 20) 1 in
  let score := (score + density_score * 0.5)%Q in
  mret (py_min score 1).

(** [sender_txs[sender].append(tx)], creating the entry at the end of the
    dictionary when the sender is new. *)
Fixpoint append_to_sender (sender : string) (tx : Transaction)
    (sender_txs : list (string * list Transaction))
    : list (string * list Transaction) :=
  match sender_txs with
  | [] => [(sender, [tx])]
  | (s, txs) :: sender_txs' =>
      if String.eqb s sender then (s, txs ++ [tx]) :: sender_txs'
      else (s, txs) :: append_to_sender sender tx sender_txs'
  end.

(** The loop [for tx in self.transactions] that groups by sender; the
    dictionary keeps its keys in insertion order. *)
Fixpoint group_by_sender (txs : list Transaction)
    (sender_txs : list (string * list Transaction))
    : list (string * list Transaction) :=
  match txs with
  | [] => sender_txs
  | tx :: txs' =>
      group_by_sender txs' (append_to_sender (sender_id tx) tx sender_txs)
  end.

(** The loop [for i in range(len(txs))] of one sender, left by [break] at
    the first window that is large enough; the argument is [txs[i:]]. *)
Fixpoint burst_windows_loop (sender : string)
    (burst_threshold burst_window_hours : Q) (txs : list Transaction)
    : result (option NetworkAnomaly) :=
  match txs with
  | [] => Ok None
  | txi :: rest =>
      let window_txs :=
        window_loop (timestamp txi) burst_window_hours rest [txi] in
      if Qle_bool burst_threshold (len window_txs) then
        risk_score ←
          _calculate_burst_risk_score sender window_txs burst_threshold
            burst_window_hours;
        mret (Some (Burst sender (length window_txs) burst_window_hours
                      window_txs risk_score))
      else
        burst_windows_loop sender burst_threshold burst_window_hours rest
  end.

(** The loop [for sender, txs in sender_txs.items()]. *)
Fixpoint burst_senders_loop (burst_threshold burst_window_hours : Q)
    (items : list (string * list Transaction))
    (anomalies : list NetworkAnomaly) : result (list NetworkAnomaly) :=
  match items with
  | [] => Ok anomalies
  | (sender, txs) :: items' =>
      if Qltb (len txs) burst_threshold then
        burst_senders_loop burst_threshold burst_window_hours items'
          anomalies
      else
        let txs := sort_by_timestamp timestamp txs in
        found ←
          burst_windows_loop sender burst_threshold burst_window_hours txs;
        match found with
        | Some anomaly =>
            burst_senders_loop burst_threshold burst_window_hours items'
              (anomalies ++ [anomaly])
        | None =>
            burst_senders_loop burst_threshold burst_window_hours items'
              anomalies
        end
  end.

Definition _detect_burst_anomalies (self : FraudDetector)
    (burst_threshold burst_window_hours : Q)
    : result (list NetworkAnomaly) :=
  let anomalies := [] in
  let sender_txs := group_by_sender (transactions self) [] in
  burst_senders_loop burst_threshold burst_window_hours sender_txs
    anomalies.

Definition _calculate_community_risk_score (community : gset string)
    (internal_ratio : Q) (size : nat) : Q :=
  let score := 0%Q in
  let ratio_score := internal_ratio in
  let score := (score + ratio_score * 0.6)%Q in
  let size_score := py_min (inject_Z (Z.of_nat size) / 20) 1 in
  let score := (score + size_score * 0.4)%Q in
  py_min score 1.

(** The loop [for tx in self.transactions] counting the internal and
    external transactions of a community. *)
Fixpoint count_community_txs (community : gset string)
    (txs : list Transaction) (internal_txs external_txs : nat)
    : nat * nat :=
  match txs with
  | [] => (internal_txs, external_txs)
  | tx :: txs' =>
      let sender_in := bool_decide (sender_id tx ∈ community) in
      let receiver_in := bool_decide (receiver_id tx ∈ community) in
      if sender_in && receiver_in then
        count_community_txs community txs' (internal_txs + 1) external_txs
      else if sender_in || receiver_in then
        count_community_txs community txs' internal_txs (external_txs + 1)
      else
        count_community_txs community txs' internal_txs external_txs
  end.

(** The loop [for community in communities]. *)
Fixpoint communities_loop (self : FraudDetector) (isolation_threshold : Q)
    (communities : list (gset string)) (anomalies : list NetworkAnomaly)
    : list NetworkAnomaly :=
  match communities with
  | [] => anomalies
  | community :: communities' =>
      if (size community <? 3)%nat then
        communities_loop self isolation_threshold communities' anomalies
      else
        let '(internal_txs, external_txs) :=
          count_community_txs community (transactions self) 0 0 in
        let total_txs := internal_txs + external_txs in
        if (total_txs =? 0)%nat then
          communities_loop self isolation_threshold communities' anomalies
        else
          let internal_ratio :=
            (inject_Z (Z.of_nat internal_txs)
             / inject_Z (Z.of_nat total_txs))%Q in
          if Qle_bool isolation_threshold internal_ratio then
            let risk_score :=
              _calculate_community_risk_score community internal_ratio
                (size community) in
            communities_loop self isolation_threshold communities'
              (anomalies ++
               [IsolatedCommunity (elements community) internal_txs
                  external_txs internal_ratio risk_score])
          else
            communities_loop self isolation_threshold communities'
              anomalies
  end.

(** [g] is [self.graph], which the caller has checked to be built. *)
Definition _detect_isolated_communities (self : FraudDetector)
    (g : DiGraph) (isolation_threshold : Q) : list NetworkAnomaly :=
  let anomalies := [] in
  let communities := detect_communities g in
  communities_loop self isolation_threshold communities anomalies.

Definition detect_network_anomalies (self : FraudDetector)
    (degree_threshold burst_threshold burst_window_hours
       isolation_threshold : option Q)
    : result (list NetworkAnomaly) * FraudDetector :=
  match graph self with
  | None => (Raise ValueError, self)
  | Some g =>
      let outcome :=
        degree_threshold ←
          py_or degree_threshold
            (getitem (detection_params self) "anomaly_degree_threshold");
        burst_threshold ←
          py_or burst_threshold
            (getitem (detection_params self) "anomaly_burst_threshold");
        burst_window_hours ←
          py_or burst_window_hours
            (getitem (detection_params self) "anomaly_burst_window_hours");
        isolation_threshold ←
          py_or isolation_threshold
            (getitem (detection_params self) "anomaly_isolation_threshold");
        let detected_anomalies := [] in
        let hub_anomalies := _detect_hub_anomalies g degree_threshold in
        let detected_anomalies := detected_anomalies ++ hub_anomalies in
        burst_anomalies ←
          _detect_burst_anomalies self burst_threshold burst_window_hours;
        let detected_anomalies := detected_anomalies ++ burst_anomalies in
        let community_anomalies :=
          _detect_isolated_communities self g isolation_threshold in
        let detected_anomalies :=
          detected_anomalies ++ community_anomalies in
        mret (sort_by_risk anomaly_risk_score detected_anomalies) in
      match outcome with
      | Ok detected_anomalies =>
          (Ok detected_anomalies,
           set_network_anomalies self detected_anomalies)
      | Raise e => (Raise e, self)
      end
  end.

(* --------------------------------------------------------------- *)
(** *** Complete detection *)




(* --------------------------------------------------------------- *)
(** *** Configuration *)

(** [kwargs] is the dictionary of keyword arguments, in the order of the
    call. *)
Fixpoint set_detection_params (self : FraudDetector)
    (kwargs : list (string * Q)) : result unit * FraudDetector :=
  match kwargs with
  | [] => (Ok tt, self)
  | (key, value) :: kwargs' =>
      if bool_decide (is_Some (detection_params self !! key)) then
        set_detection_params (set_param self key value) kwargs'
      else (Raise ValueError, self)
  end.

Definition get_detection_params (self : FraudDetector) : gmap string Q :=
  detection_params self.

(* ================================================================= *)
(** ** Notions used in the statements *)

(** [may_precede before a b]: the sort does not have to put [b] before
    [a]. *)
Definition may_precede {A : Type} (before : A -> A -> bool) (a b : A)
    : Prop :=
  before b a = false.


(** The edge of [cycle] that starts at index [i]. *)
Definition edge_txs (self : FraudDetector) (cycle : list string) (i : nat)
    : list Transaction :=
  txs_between self (nth i cycle "")
    (nth ((i + 1) mod length cycle) cycle "").

(** [rep] is what the loop appends for index [i]. *)
Definition is_representative (self : FraudDetector) (cycle : list string)
    (i : nat) (rep : Transaction) : Prop :=
  exists tx0 txs,
    edge_txs self cycle i = tx0 :: txs
    /\ rep = py_max_by timestamp tx0 txs.

(** [override or self.detection_params[key]]: the value a detector works
    with. *)
Definition effective (self : FraudDetector) (override : option Q)
    (key : string) : result Q :=
  py_or override (getitem (detection_params self) key).

(** The transactions of a cycle finding follow its cycle. *)
Definition cycle_edges_realised (F : CycleFinding.t) : Prop :=
  length (CycleFinding.transactions F) = CycleFinding.length F
  /\ forall i, i < CycleFinding.length F ->
       exists tx,
         CycleFinding.transactions F !! i = Some tx
         /\ CycleFinding.cycle F !! i = Some (sender_id tx)
         /\ CycleFinding.cycle F !! ((i + 1) mod CycleFinding.length F)
            = Some (receiver_id tx).


Definition in_unit_interval (x : Q) : Prop := (0 <= x /\ x <= 1)%Q.

(** What the smurfing scan records about an accepted window of the
    sorted inbound transactions [l]. *)
Definition accepted_window (self : FraudDetector)
    (time_window_hours amount_ratio : Q)
    (l : list Transaction) (p : Pattern.t) : Prop :=
  (forall t, In t (Pattern.transactions p) -> In t l)
  /\ (exists t0,
        In t0 (Pattern.transactions p)
        /\ forall t, In t (Pattern.transactions p) ->
             (timestamp t0 <= timestamp t)%Z
             /\ ((0 <= time_window_hours)%Q ->
                 (hours (timestamp t - timestamp t0)
                  <= time_window_hours)%Q))
  /\ Pattern.amounts p = map amount (Pattern.transactions p)
  /\ (0 < np_mean (Pattern.amounts p))%Q
  /\ Pattern.cv p
     = (np_std (Pattern.amounts p) / np_mean (Pattern.amounts p))%Q
  /\ (Pattern.cv p <= 1 - amount_ratio)%Q
  /\ (exists min_size,
        getitem (detection_params self) "smurfing_min_transactions"
        = Ok min_size
        /\ (min_size <= len (Pattern.transactions p))%Q).

(** The invariant of a smurfing finding, for the threshold, window and
    ratio of the call. *)
Definition smurfing_invariant (threshold window ratio : Q)
    (F : SmurfingFinding.t) : Prop :=
  (forall t, In t (SmurfingFinding.transactions F) ->
     receiver_id t = SmurfingFinding.pivot_account F
     /\ (amount t < threshold)%Q)
  /\ (exists t0,
        In t0 (SmurfingFinding.transactions F)
        /\ forall t, In t (SmurfingFinding.transactions F) ->
             (timestamp t0 <= timestamp t)%Z
             /\ ((0 <= window)%Q ->
                 (hours (timestamp t - timestamp t0) <= window)%Q))
  /\ SmurfingFinding.coefficient_of_variation F
     = (np_std (map amount (SmurfingFinding.transactions F))
        / np_mean (map amount (SmurfingFinding.transactions F)))%Q
  /\ (SmurfingFinding.coefficient_of_variation F <= 1 - ratio)%Q.

(** The hub score in the words of the specification (section 4.5.1):
    [0.40 * min(max(0, (degree - mu)/sigma), 5) / 5], this factor being 0
    when [sigma = 0], plus [0.30 * min(betweenness * 10, 1)], plus
    [0.30 * min(pagerank * 10, 1)], clamped to the unit interval. *)
Definition clamp_unit (x : Q) : Q := Qmax 0 (Qmin x 1).

Definition hub_score_spec (m : Metrics) (mu sigma : Q) : Q :=
  let z_factor :=
    if Qeq_bool sigma 0 then 0%Q
    else (0.40 * Qmin (Qmax 0 ((degree_centrality m - mu) / sigma)) 5
          / 5)%Q in
  clamp_unit
    (z_factor
     + 0.30 * Qmin (betweenness_centrality m * 10) 1
     + 0.30 * Qmin (pagerank m * 10) 1)%Q.

(** The outgoing transactions of [sender], in the order of the corpus. *)
Definition outgoing (self : FraudDetector) (sender : string)
    : list Transaction :=
  List.filter (fun tx => String.eqb (sender_id tx) sender)
    (transactions self).

(** The window anchored at the transaction [t]: [t] and the transactions
    after it that are at most [window_hours] later. *)
Definition anchored_window (window_hours : Q) (t : Transaction)
    (later : list Transaction) : list Transaction :=
  t :: List.filter
         (fun u =>
            Qle_bool (hours (timestamp u - timestamp t)) window_hours)
         later.

(** The windows anchored at the start indices 0, 1, ... of [txs]. *)
Fixpoint anchored_windows (window_hours : Q) (txs : list Transaction)
    : list (list Transaction) :=
  match txs with
  | [] => []
  | t :: later =>
      anchored_window window_hours t later
      :: anchored_windows window_hours later
  end.

(** The first of these windows whose size reaches the threshold. *)
Definition first_burst_window (burst_threshold window_hours : Q)
    (txs : list Transaction) : option (list Transaction) :=
  List.find (fun w => Qle_bool burst_threshold (len w))
    (anchored_windows window_hours txs).

(** The window a sender with the transactions [txs] is reported for, if
    any. *)
Definition sender_burst (burst_threshold window_hours : Q)
    (txs : list Transaction) : option (list Transaction) :=
  if Qltb (len txs) burst_threshold then None
  else
    first_burst_window burst_threshold window_hours
      (sort_by_timestamp timestamp txs).

(** The burst findings of [sender] among [anomalies]. *)
Definition is_burst_of (sender : string) (a : NetworkAnomaly) : bool :=
  match a with
  | Burst account _ _ _ _ => String.eqb account sender
  | _ => false
  end.

(** Lookup in the dictionary of the transactions by sender. *)
Fixpoint assoc (sender : string)
    (sender_txs : list (string * list Transaction))
    : option (list Transaction) :=
  match sender_txs with
  | [] => None
  | (s, txs) :: sender_txs' =>
      if String.eqb s sender then Some txs else assoc sender sender_txs'
  end.

(** The dictionary built by the grouping loop. *)
Definition grouped (txs : list Transaction)
    (sender_txs : list (string * list Transaction)) : Prop :=
  List.NoDup (map fst sender_txs)
  /\ forall s,
       assoc s sender_txs
       = match List.filter (fun tx => String.eqb (sender_id tx) s) txs with
         | [] => None
         | l => Some l
         end.

(** What the loop over the senders adds for each of them. *)
Definition burst_added (thr W : Q) (sender : string)
    (txs : option (list Transaction)) (added : list NetworkAnomaly)
    : Prop :=
  match txs ≫= sender_burst thr W with
  | Some w => exists r, added = [Burst sender (length w) W w r]
  | None => added = []
  end.


(** The assignments [self.detection_params[key] = value] for the pairs of
    [applied], in order. *)
Definition apply_params (self : FraudDetector)
    (applied : list (string * Q)) : FraudDetector :=
  fold_left (fun s kv => set_param s (fst kv) (snd kv)) applied self.

Definition known (self : FraudDetector) (key : string) : Prop :=
  is_Some (detection_params self !! key).

(* ================================================================= *)
(** ** Corpora and graph services of the concrete runs *)

(** A square root for the concrete runs: rounded down to six decimals. *)
Definition sqrt_6 (q : Q) : Q :=
  if Qle_bool q 0 then 0%Q
  else (Z.sqrt (Qnum q * 1000000000000 / Zpos (Qden q)) # 1000000)%Q.

(** A transaction record. *)
Definition tx (id sender receiver : string) (a : Q) (t : Z) : Transaction :=
  {| transaction_id := id; sender_id := sender; receiver_id := receiver;
     amount := a; timestamp := t |}.

(** One hour, in microseconds. *)
Definition hour : Z := 3600000000.

(** The demonstration corpus: a cycle A, B, C of three transfers, five
    deposits just below the threshold into P, and two transfers from H
    within half an hour. *)
Definition demo_transactions : list Transaction :=
  [ tx "T1" "A" "B" 10000 0;
    tx "T2" "B" "C" 10000 hour;
    tx "T3" "C" "A" 10000 (2 * hour);
    tx "S1" "X1" "P" 9000 0;
    tx "S2" "X2" "P" 9100 (8 * hour);
    tx "S3" "X3" "P" 9200 (16 * hour);
    tx "S4" "X4" "P" 9300 (24 * hour);
    tx "S5" "X5" "P" 9400 (32 * hour);
    tx "B1" "H" "L1" 100 0;
    tx "B2" "H" "L2" 100 (hour / 2) ].

Definition demo_graph : DiGraph :=
  {| nodes := ["A"; "B"; "C"; "X1"; "X2"; "X3"; "X4"; "X5"; "P"; "H";
               "L1"; "L2"];
     edges := [("A", "B"); ("B", "C"); ("C", "A"); ("X1", "P"); ("X2", "P");
               ("X3", "P"); ("X4", "P"); ("X5", "P"); ("H", "L1");
               ("H", "L2")] |}.

(** The graph services on the demonstration graph: its only simple cycle,
    metrics that single out H, and one community. *)
Definition demo_cycles (g : DiGraph) : list (list string) :=
  [["A"; "B"; "C"]].

Definition demo_metrics (g : DiGraph) : list (string * Metrics) :=
  [ ("H", {| degree_centrality := 0.9; betweenness_centrality := 0.05;
             pagerank := 0.03 |});
    ("A", {| degree_centrality := 0.1; betweenness_centrality := 0.01;
             pagerank := 0.02 |});
    ("B", {| degree_centrality := 0.1; betweenness_centrality := 0.01;
             pagerank := 0.02 |});
    ("C", {| degree_centrality := 0.1; betweenness_centrality := 0.01;
             pagerank := 0.02 |});
    ("P", {| degree_centrality := 0.1; betweenness_centrality := 0;
             pagerank := 0.04 |});
    ("L1", {| degree_centrality := 0.1; betweenness_centrality := 0;
              pagerank := 0.01 |}) ].

Definition demo_communities (g : DiGraph) : list (gset string) :=
  [ {["A"; "B"; "C"]} ].

(** The default configuration with a burst threshold of 2. *)
Definition demo_params : gmap string Q :=
  <["anomaly_burst_threshold" := 2%Q]> default_params.

Definition demo : FraudDetector :=
  loaded demo_transactions demo_graph demo_params.

(* ----------------------------------------------------------------- *)
(** *** C2: ties on the timestamp *)

(** C2 as stated: the representative has the maximal timestamp and, among
    the transactions with that timestamp, the largest identifier. *)
Definition claimed_representative (txs : list Transaction)
    (rep : Transaction) : Prop :=
  In rep txs
  /\ forall t, In t txs ->
       (timestamp t <= timestamp rep)%Z
       /\ (timestamp t = timestamp rep ->
           String.leb (transaction_id t) (transaction_id rep) = true).

(** The cycle A, B, C with two transfers from A to B at the same instant. *)
Definition tie_transactions : list Transaction :=
  [ tx "T1" "A" "B" 10000 0;
    tx "T2" "A" "B" 10000 0;
    tx "T3" "B" "C" 10000 hour;
    tx "T4" "C" "A" 10000 (2 * hour) ].

Definition tie_detector : FraudDetector :=
  loaded tie_transactions
    {| nodes := ["A"; "B"; "C"];
       edges := [("A", "B"); ("B", "C"); ("C", "A")] |}
    default_params.

(* ----------------------------------------------------------------- *)
(** *** C5: a maximal length of zero *)

(** C5 as stated, for the values of the call. *)
Definition claimed_cycle_invariant (mn mx tw : Q) (F : CycleFinding.t)
    : Prop :=
  cycle_edges_realised F
  /\ (CycleFinding.time_span_hours F <= tw)%Q
  /\ (mn <= inject_Z (Z.of_nat (CycleFinding.length F)))%Q
  /\ (inject_Z (Z.of_nat (CycleFinding.length F)) <= mx)%Q.

(** The demonstration corpus with [cycle_max_length] configured as 0. *)
Definition unbounded_detector : FraudDetector :=
  loaded demo_transactions demo_graph
    (<["cycle_max_length" := 0%Q]> default_params).

(* ----------------------------------------------------------------- *)
(** *** C9: findings with the same risk score *)







(* ----------------------------------------------------------------- *)
(** *** C1: the override of the minimal number of transactions *)

(** Three equal deposits into P within two hours. *)
Definition three_deposits : list Transaction :=
  [ tx "D1" "X1" "P" 9000 0;
    tx "D2" "X2" "P" 9000 hour;
    tx "D3" "X3" "P" 9000 (2 * hour) ].

Definition deposits_graph : DiGraph :=
  {| nodes := ["X1"; "P"; "X2"; "X3"];
     edges := [("X1", "P"); ("X2", "P"); ("X3", "P")] |}.

(* ----------------------------------------------------------------- *)
(** *** C8: one burst per sender *)

(** A sender S with one early transfer and four transfers within ninety
    minutes, and a sender Q with a single transfer. *)
Definition five_in_a_row : FraudDetector :=
  loaded
    [ tx "V1" "S" "R1" 10 0;
      tx "V2" "S" "R2" 10 (3 * hour);
      tx "V3" "S" "R3" 10 (3 * hour + hour / 2);
      tx "V4" "S" "R4" 10 (4 * hour);
      tx "V5" "S" "R5" 10 (4 * hour + hour / 2);
      tx "V6" "Q" "R1" 10 0 ]
    {| nodes := ["S"; "Q"; "R1"; "R2"; "R3"; "R4"; "R5"]; edges := [] |}
    default_params.

(* ================================================================= *)
(** * Properties *)

(* ================================================================= *)
(** ** Facts about Python numbers and lists *)

Lemma Qltb_true (x y : Q) : Qltb x y = true <-> (x < y)%Q.
Proof.
  unfold Qltb. rewrite negb_true_iff.
  split; intros H.
  - apply Qnot_le_lt. intros Hle. apply Qle_bool_iff in Hle. congruence.
  - destruct (Qle_bool y x) eqn:E; [|reflexivity].
    apply Qle_bool_iff in E. apply Qle_not_lt in E. contradiction.
Qed.

Lemma Qltb_false (x y : Q) : Qltb x y = false <-> (y <= x)%Q.
Proof.
  unfold Qltb. rewrite negb_false_iff. apply Qle_bool_iff.
Qed.

Lemma Qle_bool_false (x y : Q) : Qle_bool x y = false <-> (y < x)%Q.
Proof.
  rewrite <- Qltb_true. unfold Qltb.
  destruct (Qle_bool x y); simpl; split; congruence.
Qed.

Lemma Qeq_bool_false (x y : Q) : Qeq_bool x y = false <-> ~ (x == y)%Q.
Proof.
  split.
  - intros H Heq. apply Qeq_bool_iff in Heq. congruence.
  - intros H. destruct (Qeq_bool x y) eqn:E; [|reflexivity].
    apply Qeq_bool_iff in E. contradiction.
Qed.

(** Turn the boolean tests on numbers found in the hypotheses into
    (in)equalities. *)
Ltac qhyps :=
  repeat match goal with
  | H : Qltb _ _ = true |- _ => apply Qltb_true in H
  | H : Qltb _ _ = false |- _ => apply Qltb_false in H
  | H : Qle_bool _ _ = true |- _ => apply Qle_bool_iff in H
  | H : Qle_bool _ _ = false |- _ => apply Qle_bool_false in H
  | H : Qeq_bool _ _ = true |- _ => apply Qeq_bool_iff in H
  | H : Qeq_bool _ _ = false |- _ => apply Qeq_bool_false in H
  end.

(** Case analysis on the first number test of the goal. *)
Ltac qcase :=
  match goal with
  | |- context [Qltb ?a ?b] => destruct (Qltb a b) eqn:?
  | |- context [Qle_bool ?a ?b] => destruct (Qle_bool a b) eqn:?
  | |- context [Qeq_bool ?a ?b] => destruct (Qeq_bool a b) eqn:?
  end; qhyps.

(** Division by a literal is multiplication by its inverse. *)
Ltac qconsts :=
  unfold Qdiv in *;
  repeat match goal with
  | |- context [Qinv (Zpos ?p # 1)] =>
      change (Qinv (Zpos p # 1)) with (1 # p)%Q
  | H : context [Qinv (Zpos ?p # 1)] |- _ =>
      change (Qinv (Zpos p # 1)) with (1 # p)%Q in H
  end.


Lemma py_min_le_l (a b : Q) : (py_min a b <= a)%Q.
Proof. unfold py_min. qcase; lra. Qed.





Lemma len_le {A B : Type} (l : list A) (l' : list B) :
  (len l <= len l')%Q <-> length l <= length l'.
Proof. unfold len. rewrite <- Zle_Qle. lia. Qed.

Lemma len_pos {A : Type} (l : list A) : l <> [] -> (0 < len l)%Q.
Proof.
  intros H. unfold len. change 0%Q with (inject_Z 0). rewrite <- Zlt_Qlt.
  destruct l; [congruence | simpl; lia].
Qed.




(* --------------------------------------------------------------- *)
(** *** [list.sort] *)

Section Sort.
Context {A : Type} (before : A -> A -> bool).

Lemma py_insert_perm (x : A) (l : list A) :
  Permutation (x :: l) (py_insert before x l).
Proof.
  induction l as [|y l IH]; simpl; [reflexivity|].
  destruct (before y x); [|reflexivity].
  rewrite perm_swap. apply perm_skip, IH.
Qed.

Lemma py_sort_perm (l : list A) : Permutation l (py_sort before l).
Proof.
  induction l as [|x l IH]; simpl; [reflexivity|].
  rewrite <- py_insert_perm. apply perm_skip, IH.
Qed.

Lemma py_sort_In (l : list A) (x : A) : In x (py_sort before l) <-> In x l.
Proof.
  split; apply Permutation_in;
    [symmetry|]; apply py_sort_perm.
Qed.

Hypothesis before_asym :
  forall a b, before a b = true -> before b a = false.
Hypothesis may_precede_trans :
  forall a b c, may_precede before a b -> may_precede before b c ->
    may_precede before a c.

Lemma py_insert_sorted (x : A) (l : list A) :
  StronglySorted (may_precede before) l ->
  StronglySorted (may_precede before) (py_insert before x l).
Proof.
  induction l as [|y l IH]; intros Hs; simpl.
  - constructor; constructor.
  - inversion Hs as [|? ? Hs' Hall]; subst.
    destruct (before y x) eqn:E.
    + constructor; [apply IH, Hs'|].
      rewrite List.Forall_forall. intros z Hz.
      apply (Permutation_in _ (Permutation_sym (py_insert_perm x l))) in Hz.
      destruct Hz as [<-|Hz].
      * apply before_asym, E.
      * rewrite List.Forall_forall in Hall. apply Hall, Hz.
    + constructor; [exact Hs|].
      constructor; [exact E|].
      rewrite List.Forall_forall in Hall |- *. intros z Hz.
      apply may_precede_trans with y; [exact E | apply Hall, Hz].
Qed.

Lemma py_sort_sorted (l : list A) :
  StronglySorted (may_precede before) (py_sort before l).
Proof.
  induction l as [|x l IH]; simpl; [constructor|].
  apply py_insert_sorted, IH.
Qed.
End Sort.



Lemma StronglySorted_weaken {A : Type} (R S : A -> A -> Prop) (l : list A) :
  (forall a b, R a b -> S a b) ->
  StronglySorted R l -> StronglySorted S l.
Proof.
  intros HRS. induction 1 as [|x l Hs IH Hall]; constructor; [exact IH|].
  rewrite List.Forall_forall in Hall |- *. intros y Hy. apply HRS, Hall, Hy.
Qed.




(** A list sorted by instant, ascending. *)
Lemma sort_by_timestamp_sorted {A : Type} (key : A -> Z) (l : list A) :
  StronglySorted (fun a b => key a <= key b)%Z (sort_by_timestamp key l).
Proof.
  unfold sort_by_timestamp.
  eapply StronglySorted_weaken;
    [| apply py_sort_sorted with (before := fun y x => (key y <? key x)%Z)].
  - intros a b H. unfold may_precede in H. lia.
  - intros a b H. lia.
  - unfold may_precede. intros a b c H1 H2. lia.
Qed.

(* ================================================================= *)
(** ** Money-laundering cycles *)

(** [max(txs, key=...)] returns an element that no element exceeds and
    that no earlier element equals. *)
Lemma py_max_by_first_max {A : Type} (key : A -> Z) (l : list A) (b : A) :
  exists l1 l2,
    b :: l = l1 ++ py_max_by key b l :: l2
    /\ Forall (fun x => key x < key (py_max_by key b l))%Z l1
    /\ Forall (fun x => key x <= key (py_max_by key b l))%Z l2.
Proof.
  revert b. induction l as [|x l IH]; intros b; simpl.
  - exists [], []. repeat split; constructor.
  - destruct (key b <? key x)%Z eqn:E.
    + destruct (IH x) as (l1 & l2 & Heq & H1 & H2).
      remember (py_max_by key x l) as m eqn:Hm. clear Hm.
      exists (b :: l1), l2. rewrite Heq. repeat split; [|exact H2].
      constructor; [|exact H1].
      assert (key x <= key m)%Z.
      { destruct l1 as [|y l1]; simpl in Heq; injection Heq as Hx Hl.
        - subst. lia.
        - subst. inversion H1; subst. lia. }
      lia.
    + destruct (IH b) as (l1 & l2 & Heq & H1 & H2).
      remember (py_max_by key b l) as m eqn:Hm. clear Hm.
      destruct l1 as [|y l1]; simpl in Heq; injection Heq as Hx Hl.
      * subst. exists [], (x :: l2). simpl.
        repeat split; [constructor|].
        constructor; [lia | exact H2].
      * subst. exists (y :: x :: l1), l2. simpl. repeat split; [|exact H2].
        inversion H1; subst.
        constructor; [assumption|]. constructor; [lia | assumption].
Qed.

Lemma cycle_edges_loop_None (self : FraudDetector) (cycle : list string)
    (indices : list nat) (i : nat) :
  In i indices -> edge_txs self cycle i = [] ->
  forall cts tot ams,
    cycle_edges_loop self cycle indices cts tot ams = None.
Proof.
  intros Hin Hnil. induction indices as [|j indices IH]; [destruct Hin|].
  intros cts tot ams. simpl.
  destruct (txs_between self (nth j cycle "")
              (nth ((j + 1) mod length cycle) cycle "")) as [|tx0 txs] eqn:E;
    [reflexivity|].
  destruct Hin as [->|Hin].
  - unfold edge_txs in Hnil. congruence.
  - apply IH, Hin.
Qed.

Lemma cycle_edges_loop_Some (self : FraudDetector) (cycle : list string)
    (indices : list nat) :
  forall cts tot ams cts' tot' ams',
    cycle_edges_loop self cycle indices cts tot ams
    = Some (cts', tot', ams') ->
    exists reps,
      cts' = cts ++ reps
      /\ ams' = ams ++ map amount reps
      /\ tot' = fold_left Qplus (map amount reps) tot
      /\ Forall2 (is_representative self cycle) indices reps.
Proof.
  induction indices as [|j indices IH]; intros cts tot ams cts' tot' ams' H;
    simpl in H.
  - inversion H; subst. exists []. simpl.
    rewrite !app_nil_r. repeat split. constructor.
  - destruct (txs_between self (nth j cycle "")
                (nth ((j + 1) mod length cycle) cycle ""))
      as [|tx0 txs] eqn:E; [discriminate|].
    apply IH in H. destruct H as (reps & -> & -> & -> & HF).
    exists (py_max_by timestamp tx0 txs :: reps). simpl.
    rewrite <- !app_assoc. simpl. repeat split.
    constructor; [|exact HF]. exists tx0, txs. split; [exact E|reflexivity].
Qed.

(** What [_analyze_cycle] returns when it returns a finding. *)
Lemma _analyze_cycle_Some (self : FraudDetector) (cycle : list string)
    (time_window_hours : Q) (F : CycleFinding.t) :
  _analyze_cycle self cycle time_window_hours = Ok (Some F) ->
  CycleFinding.cycle F = cycle
  /\ CycleFinding.length F = length cycle
  /\ Forall2 (is_representative self cycle) (seq 0 (length cycle))
       (CycleFinding.transactions F)
  /\ CycleFinding.amounts F = map amount (CycleFinding.transactions F)
  /\ CycleFinding.total_amount F
     = fold_left Qplus (map amount (CycleFinding.transactions F)) 0%Q
  /\ (CycleFinding.time_span_hours F <= time_window_hours)%Q
  /\ CycleFinding.risk_score F
     = _calculate_cycle_risk_score cycle (CycleFinding.transactions F)
         (CycleFinding.total_amount F) (CycleFinding.amounts F)
         (CycleFinding.time_span_hours F).
Proof.
  unfold _analyze_cycle. intros H.
  destruct (cycle_edges_loop self cycle (seq 0 (length cycle)) [] 0%Q [])
    as [[[cts tot] ams]|] eqn:E; [|discriminate].
  apply cycle_edges_loop_Some in E. simpl in E.
  destruct E as (reps & -> & -> & -> & HF).
  destruct (map timestamp reps) as [|t0 ts]; [discriminate|].
  match type of H with
  | (if Qltb ?a ?b then _ else _) = _ => destruct (Qltb a b) eqn:Ew
  end; [discriminate|].
  inversion H; subst; clear H. simpl. qhyps.
  repeat split; try reflexivity; assumption.
Qed.

(** The findings delivered by the loop over the candidate cycles. *)
Lemma cycles_loop_In (self : FraudDetector) (max_length time_window_hours : Q)
    (all_cycles : list (list string)) :
  forall detected out,
    cycles_loop self max_length time_window_hours all_cycles detected
    = Ok out ->
    forall F, In F out ->
      In F detected
      \/ exists cycle,
           In cycle all_cycles
           /\ truthy max_length && Qltb max_length (len cycle) = false
           /\ _analyze_cycle self cycle time_window_hours = Ok (Some F).
Proof.
  induction all_cycles as [|cycle cs IH]; intros detected out H F HF;
    simpl in H.
  - inversion H; subst. left; exact HF.
  - destruct (truthy max_length && Qltb max_length (len cycle)) eqn:Emax.
    + destruct (IH _ _ H F HF) as [?|(c & Hc & ?)]; [left; assumption|].
      right. exists c. split; [right; exact Hc | assumption].
    + destruct (_analyze_cycle self cycle time_window_hours)
        as [[info|]|e] eqn:Ea; simpl in H; [| |discriminate].
      * destruct (IH _ _ H F HF) as [Hin|(c & Hc & ?)].
        -- apply in_app_or in Hin. destruct Hin as [?|[<-|[]]];
             [left; assumption|].
           right. exists cycle. repeat split; [left; reflexivity | | ];
             assumption.
        -- right. exists c. split; [right; exact Hc | assumption].
      * destruct (IH _ _ H F HF) as [?|(c & Hc & ?)]; [left; assumption|].
        right. exists c. split; [right; exact Hc | assumption].
Qed.

Lemma is_representative_first_max (self : FraudDetector)
    (cycle : list string) (i : nat) (rep : Transaction) :
  is_representative self cycle i rep ->
  exists earlier later,
    edge_txs self cycle i = earlier ++ rep :: later
    /\ Forall (fun t => timestamp t < timestamp rep)%Z earlier
    /\ Forall (fun t => timestamp t <= timestamp rep)%Z later.
Proof.
  intros (tx0 & txs & Hedge & ->). rewrite Hedge.
  apply py_max_by_first_max.
Qed.

Lemma is_representative_edge (self : FraudDetector) (cycle : list string)
    (i : nat) (rep : Transaction) :
  is_representative self cycle i rep ->
  In rep (transactions self)
  /\ sender_id rep = nth i cycle ""
  /\ receiver_id rep = nth ((i + 1) mod length cycle) cycle "".
Proof.
  intros H. destruct (is_representative_first_max _ _ _ _ H)
    as (earlier & later & Hedge & _).
  assert (Hin : In rep (edge_txs self cycle i)).
  { rewrite Hedge. apply in_or_app. right. left. reflexivity. }
  unfold edge_txs, txs_between in Hin. apply filter_In in Hin.
  destruct Hin as [Hin Hb]. apply andb_true_iff in Hb.
  destruct Hb as [Hs Hr]. apply String.eqb_eq in Hs, Hr. auto.
Qed.

Lemma lookup_nth {A : Type} (l : list A) (i : nat) (d : A) :
  i < length l -> l !! i = Some (nth i l d).
Proof.
  intros Hi. destruct (nth_lookup_or_length l i d) as [H|H]; [exact H|lia].
Qed.

Lemma _analyze_cycle_edges_realised (self : FraudDetector)
    (cycle : list string) (time_window_hours : Q) (F : CycleFinding.t) :
  _analyze_cycle self cycle time_window_hours = Ok (Some F) ->
  cycle_edges_realised F.
Proof.
  intros H. apply _analyze_cycle_Some in H.
  destruct H as (Hc & Hl & HF & _).
  unfold cycle_edges_realised. rewrite Hc, Hl.
  pose proof (Forall2_length _ _ _ HF) as Hlen. rewrite length_seq in Hlen.
  split; [symmetry; exact Hlen|].
  intros i Hi.
  destruct (Forall2_lookup_l _ _ _ i i HF) as (tx & Htx & Hrep).
  { rewrite lookup_seq. split; [reflexivity | exact Hi]. }
  exists tx. split; [exact Htx|].
  apply is_representative_edge in Hrep. destruct Hrep as (_ & -> & ->).
  split; apply lookup_nth.
  - exact Hi.
  - apply Nat.mod_upper_bound. lia.
Qed.

(** C5, as the code has it.  Every finding returned by
    [detect_money_laundering_cycles] has one transaction per edge of its
    cycle, the i-th one going from [cycle[i]] to [cycle[(i+1) mod length]];
    its time span is at most the effective time window; its length is at
    least the effective minimal length; and its length is at most the
    effective maximal length whenever that one is not zero (a maximal
    length of zero switches the upper bound off). *)
Theorem cycle_findings_invariant (self self' : FraudDetector)
    (min_length max_length time_window_hours : option Q)
    (res : list CycleFinding.t) :
  detect_money_laundering_cycles self min_length max_length
    time_window_hours = (Ok res, self') ->
  exists mn mx tw,
    effective self min_length "cycle_min_length" = Ok mn
    /\ effective self max_length "cycle_max_length" = Ok mx
    /\ effective self time_window_hours "cycle_time_window_hours" = Ok tw
    /\ Forall (fun F =>
         cycle_edges_realised F
         /\ (CycleFinding.time_span_hours F <= tw)%Q
         /\ (mn <= inject_Z (Z.of_nat (CycleFinding.length F)))%Q
         /\ (~ (mx == 0)%Q ->
             (inject_Z (Z.of_nat (CycleFinding.length F)) <= mx)%Q)) res.
Proof.
  unfold detect_money_laundering_cycles, effective. intros H.
  destruct (graph self) as [g|]; [|discriminate].
  destruct (py_or min_length _) as [mn|e]; simpl in H; [|discriminate].
  destruct (py_or max_length _) as [mx|e]; simpl in H; [|discriminate].
  destruct (py_or time_window_hours _) as [tw|e]; simpl in H;
    [|discriminate].
  destruct (cycles_loop self mx tw (find_cycles_in_graph g mn) [])
    as [detected|e] eqn:Eloop; simpl in H; [|discriminate].
  injection H as <- _.
  exists mn, mx, tw. repeat split.
  rewrite List.Forall_forall. intros F HF.
  apply py_sort_In in HF.
  destruct (cycles_loop_In _ _ _ _ _ _ Eloop F HF)
    as [[]|(cycle & Hin & Hmax & Ha)].
  split; [eapply _analyze_cycle_edges_realised; exact Ha|].
  apply _analyze_cycle_Some in Ha.
  destruct Ha as (_ & Hl & _ & _ & _ & Hspan & _).
  split; [exact Hspan|]. rewrite Hl.
  unfold find_cycles_in_graph in Hin. apply filter_In in Hin.
  destruct Hin as [_ Hmin]. qhyps.
  split; [exact Hmin|].
  intros Hnz. apply andb_false_iff in Hmax. destruct Hmax as [Ht|Hlt].
  - unfold truthy in Ht. apply negb_false_iff in Ht. qhyps. contradiction.
  - qhyps. exact Hlt.
Qed.

(** C2, as the code has it.  In [_analyze_cycle], a cycle one of whose
    consecutive pairs has no transaction is discarded; otherwise the
    representative of each pair is the first transaction, in the order
    of [self.transactions], among those of the pair with the maximal
    timestamp. *)
Theorem cycle_representative_first_most_recent (self : FraudDetector)
    (cycle : list string) (time_window_hours : Q) :
  (forall i, i < length cycle -> edge_txs self cycle i = [] ->
     _analyze_cycle self cycle time_window_hours = Ok None)
  /\ (forall F,
        _analyze_cycle self cycle time_window_hours = Ok (Some F) ->
        forall i, i < length cycle ->
          exists rep earlier later,
            CycleFinding.transactions F !! i = Some rep
            /\ edge_txs self cycle i = earlier ++ rep :: later
            /\ Forall (fun t => timestamp t < timestamp rep)%Z earlier
            /\ Forall (fun t => timestamp t <= timestamp rep)%Z later).
Proof.
  split.
  - intros i Hi Hnil. unfold _analyze_cycle.
    rewrite (cycle_edges_loop_None self cycle _ i); [reflexivity| |exact Hnil].
    apply in_seq. lia.
  - intros F HF i Hi. apply _analyze_cycle_Some in HF.
    destruct HF as (_ & _ & HF & _).
    destruct (Forall2_lookup_l _ _ _ i i HF) as (rep & Hrep & His).
    { rewrite lookup_seq. split; [reflexivity | exact Hi]. }
    destruct (is_representative_first_max _ _ _ _ His)
      as (earlier & later & ? & ? & ?).
    exists rep, earlier, later. auto.
Qed.

(* ================================================================= *)
(** ** Risk scores of the cycle findings *)




(* ================================================================= *)
(** ** Smurfing *)

(** The window scan takes transactions from the front of [rest], all of
    them within the window. *)
Lemma window_loop_spec (window_start : Z) (time_window_hours : Q)
    (rest : list Transaction) :
  forall window_txs,
    exists taken dropped,
      window_loop window_start time_window_hours rest window_txs
      = window_txs ++ taken
      /\ rest = taken ++ dropped
      /\ Forall (fun t =>
           hours (timestamp t - window_start) <= time_window_hours)%Q taken.
Proof.
  induction rest as [|txj rest IH]; intros window_txs; simpl.
  - exists [], []. rewrite app_nil_r. repeat split. constructor.
  - qcase.
    + exists [], (txj :: rest). rewrite app_nil_r. repeat split. constructor.
    + destruct (IH (window_txs ++ [txj])) as (taken & dropped & -> & -> & HF).
      exists (txj :: taken), dropped. rewrite <- app_assoc. simpl.
      repeat split. constructor; assumption.
Qed.

Lemma accepted_window_cons (self : FraudDetector) (tw ar : Q)
    (x : Transaction) (l : list Transaction) (p : Pattern.t) :
  accepted_window self tw ar l p -> accepted_window self tw ar (x :: l) p.
Proof.
  intros (H1 & H2). split; [|exact H2].
  intros t Ht. right. apply H1, Ht.
Qed.

Lemma hours_zero : (hours 0 == 0)%Q.
Proof. reflexivity. Qed.

Lemma smurfing_windows_loop_In (self : FraudDetector) (tw ar : Q)
    (l : list Transaction) :
  StronglySorted (fun a b => timestamp a <= timestamp b)%Z l ->
  forall patterns out,
    smurfing_windows_loop self tw ar l patterns = Ok out ->
    forall p, In p out -> In p patterns \/ accepted_window self tw ar l p.
Proof.
  induction l as [|txi rest IH]; intros Hs patterns out H p Hp;
    simpl in H.
  - inversion H; subst. left; exact Hp.
  - destruct (getitem (detection_params self) "smurfing_min_transactions")
      as [m|e] eqn:Hm; simpl in H; [|discriminate].
    inversion Hs as [|? ? Hs' Hall]; subst.
    destruct (IH Hs' _ _ H p Hp) as [Hin|Hacc];
      [|right; apply accepted_window_cons, Hacc].
    destruct (window_loop_spec (timestamp txi) tw rest [txi])
      as (taken & dropped & Hw & Hrest & Htaken).
    rewrite Hw in Hin. change ([txi] ++ taken) with (txi :: taken) in Hin.
    remember (txi :: taken) as w eqn:Ew.
    destruct (Qle_bool m (len w)) eqn:Esize; [|left; exact Hin].
    destruct (Qltb 0 (np_mean (map amount w))) eqn:Emean;
      [|left; exact Hin].
    destruct (Qle_bool (np_std (map amount w) / np_mean (map amount w))
                (1 - ar)) eqn:Ecv; [|left; exact Hin].
    apply in_app_or in Hin. destruct Hin as [Hin|[<-|[]]];
      [left; exact Hin|].
    right. qhyps. unfold accepted_window. simpl.
    repeat split; try assumption; try reflexivity.
    + subst w. intros t [<-|Ht]; [left; reflexivity|].
      right. rewrite Hrest. apply in_or_app. left. exact Ht.
    + subst w. exists txi. split; [left; reflexivity|].
      rewrite List.Forall_forall in Hall, Htaken.
      intros t [<-|Ht].
      * split; [lia|]. intros Htw. rewrite Z.sub_diag, hours_zero.
        exact Htw.
      * split.
        -- apply Hall. rewrite Hrest. apply in_or_app. left. exact Ht.
        -- intros _. apply Htaken, Ht.
    + exists m. split; [exact Hm | exact Esize].
Qed.

Lemma py_max_by_In {A : Type} (key : A -> Z) (l : list A) (b : A) :
  In (py_max_by key b l) (b :: l).
Proof.
  destruct (py_max_by_first_max key l b) as (l1 & l2 & -> & _).
  apply in_or_app. right. left. reflexivity.
Qed.

(** What [_analyze_smurfing_pattern] returns when it returns a finding. *)
Lemma _analyze_smurfing_pattern_Some (self : FraudDetector)
    (pivot_account : string) (incoming_txs : list Transaction)
    (threshold tw ar : Q) (F : SmurfingFinding.t) :
  _analyze_smurfing_pattern self pivot_account incoming_txs threshold tw ar
  = Ok (Some F) ->
  exists p,
    accepted_window self tw ar incoming_txs p
    /\ SmurfingFinding.pivot_account F = pivot_account
    /\ SmurfingFinding.transactions F = Pattern.transactions p
    /\ SmurfingFinding.coefficient_of_variation F = Pattern.cv p
    /\ SmurfingFinding.risk_score F
       = _calculate_smurfing_risk_score pivot_account p
           (py_sum (Pattern.amounts p)) (np_mean (Pattern.amounts p))
           threshold.
Proof.
  unfold _analyze_smurfing_pattern. intros H.
  destruct (smurfing_windows_loop self tw ar
              (sort_by_timestamp timestamp incoming_txs) [])
    as [patterns|e] eqn:Eloop; simpl in H; [|discriminate].
  destruct patterns as [|p0 ps]; [discriminate|].
  inversion H; subst; clear H. simpl.
  set (best := py_max_by _ p0 ps).
  exists best. split; [|repeat split].
  pose proof (py_max_by_In
    (fun p => Z.of_nat (length (Pattern.transactions p))) ps p0) as Hbest.
  fold best in Hbest.
  destruct (smurfing_windows_loop_In self tw ar _
              (sort_by_timestamp_sorted timestamp incoming_txs)
              _ _ Eloop best Hbest) as [Hnil|Hacc]; [destruct Hnil|].
  unfold accepted_window in Hacc |- *.
  destruct Hacc as (Hsub & Hrest). split; [|exact Hrest].
  intros t Ht. apply Hsub in Ht.
  unfold sort_by_timestamp in Ht. apply py_sort_In in Ht. exact Ht.
Qed.

Lemma smurfing_nodes_loop_In (self : FraudDetector)
    (threshold min_transactions tw ar : Q) (graph_nodes : list string) :
  forall detected out,
    smurfing_nodes_loop self threshold min_transactions tw ar graph_nodes
      detected = Ok out ->
    forall F, In F out ->
      In F detected
      \/ exists node,
           In node graph_nodes
           /\ (min_transactions
               <= len (incoming_below self node threshold))%Q
           /\ _analyze_smurfing_pattern self node
                (incoming_below self node threshold) threshold tw ar
              = Ok (Some F).
Proof.
  induction graph_nodes as [|node ns IH]; intros detected out H F HF;
    simpl in H.
  - inversion H; subst. left; exact HF.
  - destruct (Qltb (len (incoming_below self node threshold))
                min_transactions) eqn:Eskip.
    + destruct (IH _ _ H F HF) as [?|(n & Hn & ?)]; [left; assumption|].
      right. exists n. split; [right; exact Hn | assumption].
    + destruct (_analyze_smurfing_pattern self node
                  (incoming_below self node threshold) threshold tw ar)
        as [[info|]|e] eqn:Ea; simpl in H; [| |discriminate].
      * destruct (IH _ _ H F HF) as [Hin|(n & Hn & ?)].
        -- apply in_app_or in Hin. destruct Hin as [?|[<-|[]]];
             [left; assumption|].
           right. exists node. qhyps.
           repeat split; [left; reflexivity | | ]; assumption.
        -- right. exists n. split; [right; exact Hn | assumption].
      * destruct (IH _ _ H F HF) as [?|(n & Hn & ?)]; [left; assumption|].
        right. exists n. split; [right; exact Hn | assumption].
Qed.

(** What the loop over the accounts delivers, with the values of the
    call. *)
Lemma detect_smurfing_Ok (self self' : FraudDetector)
    (threshold min_transactions time_window_hours amount_ratio : option Q)
    (res : list SmurfingFinding.t) :
  detect_smurfing self threshold min_transactions time_window_hours
    amount_ratio = (Ok res, self') ->
  exists g thr mn tw ar detected,
    graph self = Some g
    /\ effective self threshold "smurfing_threshold" = Ok thr
    /\ effective self min_transactions "smurfing_min_transactions" = Ok mn
    /\ effective self time_window_hours "smurfing_time_window_hours"
       = Ok tw
    /\ effective self amount_ratio "smurfing_amount_ratio" = Ok ar
    /\ smurfing_nodes_loop self thr mn tw ar (nodes g) [] = Ok detected
    /\ res = sort_by_risk SmurfingFinding.risk_score detected
    /\ self' = set_smurfing_patterns self res.
Proof.
  unfold detect_smurfing, effective. intros H.
  destruct (graph self) as [g|]; [|discriminate].
  destruct (py_or threshold _) as [thr|e]; simpl in H; [|discriminate].
  destruct (py_or min_transactions _) as [mn|e]; simpl in H;
    [|discriminate].
  destruct (py_or time_window_hours _) as [tw|e]; simpl in H;
    [|discriminate].
  destruct (py_or amount_ratio _) as [ar|e]; simpl in H; [|discriminate].
  destruct (smurfing_nodes_loop self thr mn tw ar (nodes g) [])
    as [detected|e] eqn:Eloop; simpl in H; [|discriminate].
  injection H as <- <-.
  exists g, thr, mn, tw, ar, detected. repeat split. exact Eloop.
Qed.

(** C6.  Every finding returned by [detect_smurfing] has transactions
    that all go to its pivot account with an amount below the effective
    threshold, that all lie within the effective time window (a width that
    is not negative) of the earliest of them, and whose coefficient of
    variation, the one recorded in the finding, is at most one minus the
    effective amount ratio. *)
Theorem smurfing_findings_invariant (self self' : FraudDetector)
    (threshold min_transactions time_window_hours amount_ratio : option Q)
    (res : list SmurfingFinding.t) :
  detect_smurfing self threshold min_transactions time_window_hours
    amount_ratio = (Ok res, self') ->
  exists thr tw ar,
    effective self threshold "smurfing_threshold" = Ok thr
    /\ effective self time_window_hours "smurfing_time_window_hours"
       = Ok tw
    /\ effective self amount_ratio "smurfing_amount_ratio" = Ok ar
    /\ Forall (smurfing_invariant thr tw ar) res.
Proof.
  intros H. apply detect_smurfing_Ok in H.
  destruct H as (g & thr & mn & tw & ar & detected
                 & _ & Hthr & _ & Htw & Har & Hloop & -> & _).
  exists thr, tw, ar. repeat split; try assumption.
  rewrite List.Forall_forall. intros F HF. apply py_sort_In in HF.
  destruct (smurfing_nodes_loop_In _ _ _ _ _ _ _ _ Hloop F HF)
    as [Hnil|(node & _ & _ & Ha)]; [destruct Hnil|].
  apply _analyze_smurfing_pattern_Some in Ha.
  destruct Ha as (p & Hacc & Hpivot & Htxs & Hcv & _).
  unfold accepted_window in Hacc.
  destruct Hacc as (Hsub & Hwin & Hams & _ & Hcvp & Hle & _).
  unfold smurfing_invariant. rewrite Hpivot, Htxs, Hcv.
  repeat split.
  - apply Hsub in H. unfold incoming_below in H. apply filter_In in H.
    destruct H as [_ Hb]. apply andb_true_iff in Hb.
    destruct Hb as [Hr _]. apply String.eqb_eq in Hr. exact Hr.
  - apply Hsub in H. unfold incoming_below in H. apply filter_In in H.
    destruct H as [_ Hb]. apply andb_true_iff in Hb.
    destruct Hb as [_ Hlt]. qhyps. exact Hlt.
  - exact Hwin.
  - rewrite Hcvp, Hams. reflexivity.
  - exact Hle.
Qed.




(* ================================================================= *)
(** ** Hub anomalies *)

Lemma py_max_Qmax (a b : Q) : py_max a b = Qmax a b.
Proof.
  unfold py_max, Qmax, GenericMinMax.gmax.
  destruct (Qltb a b) eqn:E; qhyps;
    destruct (Qcompare_spec a b); try reflexivity; lra.
Qed.

Lemma py_min_Qmin (a b : Q) : (py_min a b == Qmin a b)%Q.
Proof.
  unfold py_min. destruct (Q.min_spec a b) as [[H ->]|[H ->]];
    qcase; lra.
Qed.

(** Name the [Qmin] and [Qmax] terms and split on which argument each of
    them is. *)
Ltac qminmax :=
  repeat match goal with
  | |- context [Qmin ?a ?b] =>
      let H := fresh in
      let v := fresh "v" in
      pose proof (Q.min_spec a b) as H; set (v := Qmin a b) in *;
      clearbody v
  | _ : context [Qmin ?a ?b] |- _ =>
      let H := fresh in
      let v := fresh "v" in
      pose proof (Q.min_spec a b) as H; set (v := Qmin a b) in *;
      clearbody v
  | |- context [Qmax ?a ?b] =>
      let H := fresh in
      let v := fresh "v" in
      pose proof (Q.max_spec a b) as H; set (v := Qmax a b) in *;
      clearbody v
  | _ : context [Qmax ?a ?b] |- _ =>
      let H := fresh in
      let v := fresh "v" in
      pose proof (Q.max_spec a b) as H; set (v := Qmax a b) in *;
      clearbody v
  end;
  repeat match goal with
  | H : _ \/ _ |- _ => destruct H
  | H : _ /\ _ |- _ => destruct H
  end.

Lemma _calculate_hub_risk_score_spec (account : string) (m : Metrics)
    (mu sigma : Q) :
  (0 <= sigma)%Q ->
  (mu + 2 * sigma < degree_centrality m)%Q ->
  (0 <= betweenness_centrality m)%Q -> (0 <= pagerank m)%Q ->
  (_calculate_hub_risk_score account m mu sigma
   == hub_score_spec m mu sigma)%Q
  /\ in_unit_interval (_calculate_hub_risk_score account m mu sigma).
Proof.
  intros Hs Hdeg Hb Hp.
  unfold _calculate_hub_risk_score, hub_score_spec, clamp_unit,
    in_unit_interval.
  rewrite !py_min_Qmin.
  set (z := ((degree_centrality m - mu) / sigma)%Q).
  assert (Hz : (0 < sigma -> 2 < z)%Q).
  { intros Hpos. unfold z. apply Qlt_shift_div_l; lra. }
  assert (Hcases :
    (0 < sigma)%Q /\ Qltb 0 sigma = true /\ Qeq_bool sigma 0 = false
    \/ Qltb 0 sigma = false /\ Qeq_bool sigma 0 = true).
  { destruct (Qltb 0 sigma) eqn:E1; qhyps.
    - left. repeat split; [exact E1|]. apply Qeq_bool_false. lra.
    - right. split; [reflexivity|]. apply Qeq_bool_iff. lra. }
  destruct Hcases as [(Hpos & -> & ->)|(-> & ->)];
    try specialize (Hz Hpos); qminmax; qconsts; split; lra.
Qed.

Lemma hub_loop_spec (mu sigma tau : Q) (items : list (string * Metrics)) :
  forall anomalies,
    hub_loop mu sigma tau items anomalies
    = anomalies
      ++ map (fun item =>
                Hub (fst item) (snd item) tau
                  (_calculate_hub_risk_score (fst item) (snd item) mu
                     sigma))
           (List.filter
              (fun item => Qltb tau (degree_centrality (snd item))) items).
Proof.
  induction items as [|[account metrics] items IH]; intros anomalies; simpl.
  - rewrite app_nil_r. reflexivity.
  - destruct (Qltb tau (degree_centrality metrics)); rewrite IH.
    + rewrite <- app_assoc. reflexivity.
    + reflexivity.
Qed.

(** C7.  With [mu] and [sigma] the mean and the standard deviation of
    the degree centralities of all nodes and [tau = max(degree_threshold,
    mu + 2 sigma)], hub detection emits, in the order of the nodes, one
    finding for each node whose degree centrality is strictly greater
    than [tau] and none for the others; the risk score of each finding is
    the score of the specification.  The standard deviation and the
    betweenness and PageRank values delivered by the graph services are
    not negative. *)
Theorem hub_detection_exact (g : DiGraph) (degree_threshold : Q) :
  (forall x, 0 <= np_sqrt x)%Q ->
  (forall a m, In (a, m) (compute_centrality_metrics g) ->
     (0 <= betweenness_centrality m)%Q /\ (0 <= pagerank m)%Q) ->
  let items := compute_centrality_metrics g in
  let degrees := map (fun item => degree_centrality (snd item)) items in
  let mu := np_mean degrees in
  let sigma := np_std degrees in
  let tau := Qmax degree_threshold (mu + 2 * sigma) in
  Forall2
    (fun f item =>
       exists r,
         f = Hub (fst item) (snd item) tau r
         /\ (r == hub_score_spec (snd item) mu sigma)%Q)
    (_detect_hub_anomalies g degree_threshold)
    (List.filter (fun item => Qltb tau (degree_centrality (snd item)))
       items)
  /\ forall a m, In (a, m) items ->
       ((tau < degree_centrality m)%Q
        <-> exists r, In (Hub a m tau r)
                        (_detect_hub_anomalies g degree_threshold)).
Proof.
  intros Hsqrt Hmetrics items degrees mu sigma tau.
  assert (Hres : _detect_hub_anomalies g degree_threshold
                 = map (fun item =>
                          Hub (fst item) (snd item) tau
                            (_calculate_hub_risk_score (fst item)
                               (snd item) mu sigma))
                     (List.filter
                        (fun item =>
                           Qltb tau (degree_centrality (snd item)))
                        items)).
  { unfold _detect_hub_anomalies. fold items. fold degrees.
    destruct degrees as [|d ds] eqn:Ed.
    - destruct items; [reflexivity | discriminate].
    - rewrite hub_loop_spec. simpl. rewrite py_max_Qmax. reflexivity. }
  rewrite Hres. split.
  - apply Forall2_fmap_l. apply Forall_Forall2_diag.
    rewrite List.Forall_forall. intros [a m] Hin.
    apply filter_In in Hin. destruct Hin as [Hin Htau]. simpl in *. qhyps.
    eexists. split; [reflexivity|].
    destruct (Hmetrics a m Hin) as [Hb Hp].
    apply _calculate_hub_risk_score_spec; try assumption.
    + apply Hsqrt.
    + pose proof (Q.le_max_r degree_threshold (mu + 2 * sigma)) as Hmax.
      fold tau in Hmax. lra.
  - intros a m Hin. split.
    + intros Htau. eexists. apply in_map_iff. exists (a, m). simpl.
      split; [reflexivity|]. apply filter_In. split; [exact Hin|].
      apply Qltb_true. exact Htau.
    + intros (r & Hr). apply in_map_iff in Hr.
      destruct Hr as ([a' m'] & Heq & Hin'). simpl in Heq.
      injection Heq as -> -> _. apply filter_In in Hin'.
      destruct Hin' as [_ Htau]. simpl in Htau. qhyps. exact Htau.
Qed.

(* ================================================================= *)
(** ** Burst anomalies *)

Lemma hours_monotone (a b : Z) : (a <= b)%Z -> (hours a <= hours b)%Q.
Proof.
  intros H. unfold hours, total_seconds. rewrite Zle_Qle in H.
  qconsts. lra.
Qed.

Lemma window_loop_filter (window_start : Z) (window_hours : Q)
    (rest : list Transaction) :
  StronglySorted (fun a b => timestamp a <= timestamp b)%Z rest ->
  forall window_txs,
    window_loop window_start window_hours rest window_txs
    = window_txs
      ++ List.filter
           (fun u =>
              Qle_bool (hours (timestamp u - window_start)) window_hours)
           rest.
Proof.
  induction rest as [|txj rest IH]; intros Hs window_txs; simpl.
  - rewrite app_nil_r. reflexivity.
  - inversion Hs as [|? ? Hs' Hall]; subst.
    destruct (Qltb window_hours (hours (timestamp txj - window_start)))
      eqn:E.
    + qhyps. apply Qle_bool_false in E. rewrite E.
      apply Qle_bool_false in E.
      assert (Hnone :
        List.filter
          (fun u =>
             Qle_bool (hours (timestamp u - window_start)) window_hours)
          rest = []).
      { clear IH Hs Hs'. induction rest as [|u rest IHr];
          [reflexivity|]. simpl.
        inversion Hall as [|? ? Hu Hall']; subst.
        assert (Hlate :
          (window_hours < hours (timestamp u - window_start))%Q).
        { pose proof (hours_monotone (timestamp txj - window_start)
                        (timestamp u - window_start)) as Hm.
          assert (hours (timestamp txj - window_start)
                  <= hours (timestamp u - window_start))%Q
            by (apply Hm; lia).
          lra. }
        apply Qle_bool_false in Hlate. rewrite Hlate.
        apply IHr, Hall'. }
      rewrite Hnone, app_nil_r. reflexivity.
    + unfold Qltb in E. apply negb_false_iff in E. rewrite E.
      rewrite IH by exact Hs'. rewrite <- app_assoc. reflexivity.
Qed.

Lemma window_loop_anchored (window_hours : Q) (t : Transaction)
    (later : list Transaction) :
  StronglySorted (fun a b => timestamp a <= timestamp b)%Z (t :: later) ->
  window_loop (timestamp t) window_hours later [t]
  = anchored_window window_hours t later.
Proof.
  intros Hs. inversion Hs; subst.
  rewrite window_loop_filter by assumption. reflexivity.
Qed.

Lemma burst_windows_loop_spec (sender : string) (thr W : Q)
    (txs : list Transaction) :
  StronglySorted (fun a b => timestamp a <= timestamp b)%Z txs ->
  burst_windows_loop sender thr W txs
  = match first_burst_window thr W txs with
    | None => Ok None
    | Some w =>
        risk_score ← _calculate_burst_risk_score sender w thr W;
        mret (Some (Burst sender (length w) W w risk_score))
    end.
Proof.
  unfold first_burst_window.
  induction txs as [|txi rest IH]; intros Hs; simpl; [reflexivity|].
  rewrite window_loop_anchored by exact Hs.
  destruct (Qle_bool thr (len (anchored_window W txi rest)));
    [reflexivity|].
  apply IH. inversion Hs; assumption.
Qed.

Lemma _calculate_burst_risk_score_outcome (account : string)
    (txs : list Transaction) (thr W : Q) :
  match _calculate_burst_risk_score account txs thr W with
  | Ok _ => True
  | Raise e => e = ZeroDivisionError /\ ((thr * 2 == 0)%Q \/ (W == 0)%Q)
  end.
Proof.
  unfold _calculate_burst_risk_score, py_div.
  destruct (Qeq_bool (thr * 2) 0) eqn:E1; simpl; qhyps; [auto|].
  destruct (Qeq_bool W 0) eqn:E2; simpl; qhyps; auto.
Qed.

Lemma assoc_None (sender : string)
    (sender_txs : list (string * list Transaction)) :
  assoc sender sender_txs = None <-> ~ In sender (map fst sender_txs).
Proof.
  induction sender_txs as [|[s txs] l IH]; simpl; [tauto|].
  destruct (String.eqb_spec s sender) as [->|Hne].
  - split; [discriminate | intros H; exfalso; apply H; left; reflexivity].
  - rewrite IH. tauto.
Qed.

Lemma assoc_append_to_sender (sender : string) (tx : Transaction)
    (sender_txs : list (string * list Transaction)) (s : string) :
  assoc s (append_to_sender sender tx sender_txs)
  = if String.eqb sender s then
      Some (match assoc sender sender_txs with
            | Some txs => txs ++ [tx]
            | None => [tx]
            end)
    else assoc s sender_txs.
Proof.
  induction sender_txs as [|[s' txs] l IH]; simpl.
  - reflexivity.
  - destruct (String.eqb_spec s' sender) as [->|Hne]; simpl.
    + destruct (String.eqb_spec sender s); reflexivity.
    + rewrite IH. destruct (String.eqb_spec sender s) as [Heq|Hne'].
      * subst s. destruct (String.eqb_spec s' sender);
          [contradiction|reflexivity].
      * destruct (String.eqb_spec s' s); reflexivity.
Qed.

Lemma keys_append_to_sender (sender : string) (tx : Transaction)
    (sender_txs : list (string * list Transaction)) :
  List.NoDup (map fst sender_txs) ->
  List.NoDup (map fst (append_to_sender sender tx sender_txs)).
Proof.
  induction sender_txs as [|[s' txs] l IH]; simpl; intros Hnd.
  - constructor; [intros [] | constructor].
  - destruct (String.eqb_spec s' sender) as [->|Hne]; simpl; [exact Hnd|].
    inversion Hnd as [|? ? Hnotin Hnd']; subst.
    constructor; [|apply IH, Hnd'].
    intros Hin. apply Hnotin.
    assert (Hs : assoc s' (append_to_sender sender tx l) <> None).
    { rewrite assoc_None. tauto. }
    rewrite assoc_append_to_sender in Hs.
    destruct (String.eqb_spec sender s'); [congruence|].
    rewrite assoc_None in Hs.
    destruct (in_dec string_dec s' (map fst l)); tauto.
Qed.

Lemma group_by_sender_grouped (txs : list Transaction) :
  forall done sender_txs,
    grouped done sender_txs ->
    grouped (done ++ txs) (group_by_sender txs sender_txs).
Proof.
  induction txs as [|tx txs IH]; intros done sender_txs Hg; simpl.
  - rewrite app_nil_r. exact Hg.
  - replace (done ++ tx :: txs) with ((done ++ [tx]) ++ txs)
      by (rewrite <- app_assoc; reflexivity).
    apply IH. destruct Hg as [Hnd Hassoc].
    split; [apply keys_append_to_sender, Hnd|].
    intros s. rewrite assoc_append_to_sender, List.filter_app. simpl.
    rewrite (Hassoc s), (Hassoc (sender_id tx)).
    destruct (String.eqb_spec (sender_id tx) s) as [<-|Hne].
    + destruct (List.filter _ done) as [|t l]; reflexivity.
    + rewrite app_nil_r. reflexivity.
Qed.

Lemma burst_senders_loop_spec (thr W : Q)
    (items : list (string * list Transaction)) :
  List.NoDup (map fst items) ->
  forall anomalies,
    match burst_senders_loop thr W items anomalies with
    | Ok out =>
        (forall a, In a out ->
           In a anomalies \/ exists s, is_burst_of s a = true)
        /\ forall s,
             exists added,
               List.filter (is_burst_of s) out
               = List.filter (is_burst_of s) anomalies ++ added
               /\ burst_added thr W s (assoc s items) added
    | Raise e => e = ZeroDivisionError /\ ((thr * 2 == 0)%Q \/ (W == 0)%Q)
    end.
Proof.
  induction items as [|[sender txs] items IH]; intros Hnd anomalies.
  - simpl. split; [auto|]. intros s. exists []. rewrite app_nil_r.
    split; reflexivity.
  - inversion Hnd as [|? ? Hnotin Hnd']; subst.
    apply assoc_None in Hnotin.
    simpl burst_senders_loop.
    assert (Hother : forall s added,
              sender <> s ->
              burst_added thr W s (assoc s items) added ->
              burst_added thr W s (assoc s ((sender, txs) :: items)) added).
    { intros s added Hne H. simpl.
      destruct (String.eqb_spec sender s); [contradiction | exact H]. }
    assert (Hself : assoc sender ((sender, txs) :: items) = Some txs).
    { simpl. rewrite String.eqb_refl. reflexivity. }
    destruct (Qltb (len txs) thr) eqn:Eskip.
    + specialize (IH Hnd' anomalies).
      destruct (burst_senders_loop thr W items anomalies) as [out|e];
        [|exact IH].
      destruct IH as [Hall IH]. split; [exact Hall|].
      intros s. destruct (IH s) as (added & Heq & Hadded).
      exists added. split; [exact Heq|].
      destruct (String.eqb_spec sender s) as [Heqs|Hne];
        [subst s|apply Hother; assumption].
      rewrite Hself. rewrite Hnotin in Hadded.
      unfold burst_added in *. simpl in *. unfold sender_burst.
      rewrite Eskip. exact Hadded.
    + rewrite burst_windows_loop_spec
        by apply sort_by_timestamp_sorted.
      destruct (first_burst_window thr W
                  (sort_by_timestamp timestamp txs)) as [w|] eqn:Ew.
      * pose proof (_calculate_burst_risk_score_outcome sender w thr W)
          as Hscore.
        destruct (_calculate_burst_risk_score sender w thr W) as [r|e];
          cbn [mbind result_bind mret result_ret]; [|exact Hscore].
        specialize (IH Hnd' (anomalies ++ [Burst sender (length w) W w r])).
        destruct (burst_senders_loop thr W items _) as [out|e];
          [|exact IH].
        destruct IH as [Hall IH]. split.
        { intros a Ha. destruct (Hall a Ha) as [Hin|?]; [|auto].
          apply in_app_or in Hin. destruct Hin as [?|[<-|[]]]; [auto|].
          right. exists sender. simpl. apply String.eqb_refl. }
        intros s. destruct (IH s) as (added & Heq & Hadded).
        rewrite List.filter_app in Heq. simpl in Heq.
        destruct (String.eqb_spec sender s) as [Heqs|Hne].
        -- subst s. exists [Burst sender (length w) W w r].
           rewrite Hnotin in Hadded. unfold burst_added in Hadded.
           simpl in Hadded. subst added. rewrite app_nil_r in Heq.
           split; [exact Heq|].
           rewrite Hself. unfold burst_added. simpl. unfold sender_burst.
           rewrite Eskip, Ew. exists r. reflexivity.
        -- exists added. rewrite app_nil_r in Heq.
           split; [exact Heq | apply Hother; assumption].
      * cbn [mbind result_bind]. specialize (IH Hnd' anomalies).
        destruct (burst_senders_loop thr W items anomalies) as [out|e];
          [|exact IH].
        destruct IH as [Hall IH]. split; [exact Hall|].
        intros s. destruct (IH s) as (added & Heq & Hadded).
        exists added. split; [exact Heq|].
        destruct (String.eqb_spec sender s) as [Heqs|Hne];
          [subst s|apply Hother; assumption].
        rewrite Hself. rewrite Hnotin in Hadded.
        unfold burst_added in *. simpl in *. unfold sender_burst.
        rewrite Eskip, Ew. exact Hadded.
Qed.

(** C8.  Burst detection either stops with a division by zero, which
    needs a burst threshold or a window width equal to zero, or returns
    burst findings only, at most one per sender: none for a sender with
    fewer outgoing transactions than the threshold or without a window
    that reaches it, and otherwise exactly the one made of the first
    window, by start index over the sender's transactions sorted by
    timestamp, whose size reaches the threshold. *)
Theorem burst_one_finding_per_sender (self : FraudDetector)
    (burst_threshold burst_window_hours : Q) :
  match _detect_burst_anomalies self burst_threshold burst_window_hours with
  | Ok anomalies =>
      (forall a, In a anomalies -> exists s, is_burst_of s a = true)
      /\ forall sender,
           match
             sender_burst burst_threshold burst_window_hours
               (outgoing self sender)
           with
           | Some w =>
               exists r,
                 List.filter (is_burst_of sender) anomalies
                 = [Burst sender (length w) burst_window_hours w r]
           | None => List.filter (is_burst_of sender) anomalies = []
           end
  | Raise e =>
      e = ZeroDivisionError
      /\ ((burst_threshold * 2 == 0)%Q \/ (burst_window_hours == 0)%Q)
  end.
Proof.
  unfold _detect_burst_anomalies.
  destruct (group_by_sender_grouped (transactions self) [] [])
    as [Hnd Hassoc].
  { split; [constructor | reflexivity]. }
  simpl in Hassoc.
  pose proof (burst_senders_loop_spec burst_threshold burst_window_hours
                _ Hnd []) as H.
  destruct (burst_senders_loop burst_threshold burst_window_hours _ [])
    as [out|e]; [|exact H].
  destruct H as [Hall H]. split.
  - intros a Ha. destruct (Hall a Ha) as [[]|?]; assumption.
  - intros sender. destruct (H sender) as (added & Heq & Hadded).
    simpl in Heq. rewrite Heq. unfold burst_added in Hadded.
    rewrite Hassoc in Hadded. fold (outgoing self sender) in Hadded.
    destruct (outgoing self sender) as [|t l] eqn:Eout; simpl in Hadded.
    + rewrite Hadded.
      unfold sender_burst, first_burst_window. simpl.
      destruct (Qltb (len []) burst_threshold); reflexivity.
    + exact Hadded.
Qed.

(* ================================================================= *)
(** ** Risk scores of the network anomalies *)







Lemma count_community_txs_sum (community : gset string)
    (txs : list Transaction) :
  forall i e i' e',
    count_community_txs community txs i e = (i', e') -> i <= i'.
Proof.
  induction txs as [|tx txs IH]; intros i e i' e' H; simpl in H.
  - injection H as <- _. lia.
  - destruct (bool_decide (sender_id tx ∈ community)
              && bool_decide (receiver_id tx ∈ community)).
    + apply IH in H. lia.
    + destruct (bool_decide (sender_id tx ∈ community)
                || bool_decide (receiver_id tx ∈ community));
        apply IH in H; lia.
Qed.




(* ================================================================= *)
(** ** The result lists of a complete detection *)



(* ================================================================= *)
(** ** The order of the network anomalies *)


(* ================================================================= *)
(** ** Overrides *)

Lemma py_or_falsy (v : Q) (default : result Q) :
  (v == 0)%Q -> py_or (Some v) default = py_or None default.
Proof.
  intros H. unfold py_or, truthy. apply Qeq_bool_iff in H. rewrite H.
  reflexivity.
Qed.

(** C10.  An override that is zero is not applied by any of the three
    detectors: the call behaves as the call without that override, which
    reads the value from the configuration. *)
Theorem falsy_override_uses_configured_value (self : FraudDetector)
    (v : Q) :
  (v == 0)%Q ->
  (forall key,
     effective self (Some v) key = getitem (detection_params self) key)
  /\ (forall a b,
        detect_money_laundering_cycles self (Some v) a b
        = detect_money_laundering_cycles self None a b)
  /\ (forall a b,
        detect_money_laundering_cycles self a (Some v) b
        = detect_money_laundering_cycles self a None b)
  /\ (forall a b,
        detect_money_laundering_cycles self a b (Some v)
        = detect_money_laundering_cycles self a b None)
  /\ (forall a b c,
        detect_smurfing self (Some v) a b c
        = detect_smurfing self None a b c)
  /\ (forall a b c,
        detect_smurfing self a (Some v) b c
        = detect_smurfing self a None b c)
  /\ (forall a b c,
        detect_smurfing self a b (Some v) c
        = detect_smurfing self a b None c)
  /\ (forall a b c,
        detect_smurfing self a b c (Some v)
        = detect_smurfing self a b c None)
  /\ (forall a b c,
        detect_network_anomalies self (Some v) a b c
        = detect_network_anomalies self None a b c)
  /\ (forall a b c,
        detect_network_anomalies self a (Some v) b c
        = detect_network_anomalies self a None b c)
  /\ (forall a b c,
        detect_network_anomalies self a b (Some v) c
        = detect_network_anomalies self a b None c)
  /\ (forall a b c,
        detect_network_anomalies self a b c (Some v)
        = detect_network_anomalies self a b c None).
Proof.
  intros Hv.
  repeat split; intros;
    unfold effective, detect_money_laundering_cycles, detect_smurfing,
      detect_network_anomalies;
    rewrite (py_or_falsy v) by exact Hv; reflexivity.
Qed.

(* ================================================================= *)
(** ** Configuration *)

Lemma known_set_param (self : FraudDetector) (key key' : string)
    (value : Q) :
  known self key ->
  (known (set_param self key value) key' <-> known self key').
Proof.
  unfold known, set_param. simpl. intros Hk.
  destruct (decide (key = key')) as [<-|Hne].
  - rewrite lookup_insert_eq. split; [intros _; exact Hk | eauto].
  - rewrite lookup_insert_ne by exact Hne. reflexivity.
Qed.

Lemma set_detection_params_prefix (kwargs applied rest : list (string * Q))
    (key : string) (value : Q) :
  forall self,
    kwargs = applied ++ (key, value) :: rest ->
    Forall (fun kv => known self (fst kv)) applied ->
    ~ known self key ->
    set_detection_params self kwargs
    = (Raise ValueError, apply_params self applied).
Proof.
  revert kwargs. induction applied as [|[k v] applied IH];
    intros kwargs self -> Hknown Hunknown; simpl.
  - rewrite bool_decide_eq_false_2 by exact Hunknown. reflexivity.
  - inversion Hknown as [|? ? Hk Hrest]; subst. simpl in Hk.
    rewrite bool_decide_eq_true_2 by exact Hk.
    apply IH; [reflexivity| |].
    + eapply List.Forall_impl; [|exact Hrest]. intros kv H.
      apply known_set_param; assumption.
    + intros H. apply Hunknown. eapply known_set_param; eassumption.
Qed.

Lemma set_detection_params_Ok (kwargs : list (string * Q)) :
  forall self,
    Forall (fun kv => known self (fst kv)) kwargs ->
    set_detection_params self kwargs = (Ok tt, apply_params self kwargs).
Proof.
  induction kwargs as [|[k v] kwargs IH]; intros self Hknown; simpl;
    [reflexivity|].
  inversion Hknown as [|? ? Hk Hrest]; subst. simpl in Hk.
  rewrite bool_decide_eq_true_2 by exact Hk.
  apply IH. eapply List.Forall_impl; [|exact Hrest]. intros kv H.
  apply known_set_param; assumption.
Qed.

(** Every list of keyword arguments either names known keys only or
    splits at its first unknown key. *)
Lemma first_unknown (self : FraudDetector) (kwargs : list (string * Q)) :
  Forall (fun kv => known self (fst kv)) kwargs
  \/ exists applied key value rest,
       kwargs = applied ++ (key, value) :: rest
       /\ Forall (fun kv => known self (fst kv)) applied
       /\ ~ known self key.
Proof.
  induction kwargs as [|[k v] kwargs IH]; [left; constructor|].
  destruct (decide (known self k)) as [Hk|Hk].
  - destruct IH as [IH|(applied & key & value & rest & -> & Ha & Hu)].
    + left. constructor; assumption.
    + right. exists ((k, v) :: applied), key, value, rest.
      repeat split; [|exact Hu]. constructor; assumption.
  - right. exists [], k, v, kwargs. repeat split; [constructor | exact Hk].
Qed.

Lemma apply_params_lookup_other (applied : list (string * Q))
    (key : string) :
  forall self,
    ~ In key (map fst applied) ->
    detection_params (apply_params self applied) !! key
    = detection_params self !! key.
Proof.
  induction applied as [|[k v] applied IH]; intros self Hnotin;
    [reflexivity|].
  change (apply_params self ((k, v) :: applied))
    with (apply_params (set_param self k v) applied).
  rewrite IH.
  - simpl. apply lookup_insert_ne. intros ->. apply Hnotin. left.
    reflexivity.
  - intros Hin. apply Hnotin. right. exact Hin.
Qed.

Lemma apply_params_lookup_applied (applied : list (string * Q))
    (key : string) (value : Q) :
  forall self,
    List.NoDup (map fst applied) -> In (key, value) applied ->
    detection_params (apply_params self applied) !! key = Some value.
Proof.
  induction applied as [|[k v] applied IH]; intros self Hnd Hin;
    [destruct Hin|].
  change (apply_params self ((k, v) :: applied))
    with (apply_params (set_param self k v) applied).
  inversion Hnd as [|? ? Hnotin Hnd']; subst.
  destruct Hin as [Heq|Hin].
  - injection Heq as -> ->.
    rewrite apply_params_lookup_other by exact Hnotin.
    simpl. apply lookup_insert_eq.
  - apply IH; assumption.
Qed.

(** C3, as the code has it.  [set_detection_params] fails, with
    [ValueError], exactly when one of the keys is not a parameter.  On
    that failure the transactions, the graph and the results are
    unchanged, the parameters named before the first unknown key hold
    their new values, and every other parameter retains the value it had
    before the call; a call whose first (or only) key is unknown changes
    nothing. *)
Theorem set_detection_params_unknown_key (self : FraudDetector)
    (kwargs : list (string * Q)) :
  (fst (set_detection_params self kwargs) = Raise ValueError
   <-> exists key value, In (key, value) kwargs /\ ~ known self key)
  /\ (fst (set_detection_params self kwargs) = Raise ValueError
      \/ fst (set_detection_params self kwargs) = Ok tt)
  /\ forall applied key value rest,
       kwargs = applied ++ (key, value) :: rest ->
       Forall (fun kv => known self (fst kv)) applied ->
       ~ known self key ->
       let self' := snd (set_detection_params self kwargs) in
       fst (set_detection_params self kwargs) = Raise ValueError
       /\ transactions self' = transactions self
       /\ graph self' = graph self
       /\ detection_results self' = detection_results self
       /\ (forall k, ~ In k (map fst applied) ->
             detection_params self' !! k = detection_params self !! k)
       /\ (List.NoDup (map fst applied) ->
           forall k v, In (k, v) applied ->
             detection_params self' !! k = Some v)
       /\ (applied = [] -> self' = self).
Proof.
  split; [|split].
  - destruct (first_unknown self kwargs)
      as [Hall|(applied & key & value & rest & Heq & Ha & Hu)].
    + rewrite set_detection_params_Ok by exact Hall. simpl.
      split; [discriminate|].
      intros (key & value & Hin & Hu). exfalso. apply Hu.
      rewrite List.Forall_forall in Hall. apply (Hall (key, value) Hin).
    + rewrite (set_detection_params_prefix _ _ _ _ _ _ Heq Ha Hu). simpl.
      split; [|reflexivity]. intros _. exists key, value.
      split; [|exact Hu]. rewrite Heq. apply in_or_app. right. left.
      reflexivity.
  - destruct (first_unknown self kwargs)
      as [Hall|(applied & key & value & rest & Heq & Ha & Hu)].
    + rewrite set_detection_params_Ok by exact Hall. right. reflexivity.
    + rewrite (set_detection_params_prefix _ _ _ _ _ _ Heq Ha Hu).
      left. reflexivity.
  - intros applied key value rest Heq Ha Hu self'. subst self'.
    rewrite (set_detection_params_prefix _ _ _ _ _ _ Heq Ha Hu). simpl.
    assert (Hframe : forall l s,
              transactions (apply_params s l) = transactions s
              /\ graph (apply_params s l) = graph s
              /\ detection_results (apply_params s l)
                 = detection_results s).
    { induction l as [|kv l IHl]; intros s; simpl; [auto|].
      apply (IHl (set_param s (fst kv) (snd kv))). }
    destruct (Hframe applied self) as (Ht & Hg & Hr).
    repeat split; try assumption.
    + intros k Hk. apply apply_params_lookup_other. exact Hk.
    + intros Hnd k v Hin. apply apply_params_lookup_applied; assumption.
    + intros ->. reflexivity.
Qed.

End Detectors.

(* ================================================================= *)
(** * Concrete runs *)

Lemma sqrt_6_nonneg (q : Q) : (0 <= sqrt_6 q)%Q.
Proof.
  unfold sqrt_6. destruct (Qle_bool q 0); [apply Qle_refl|].
  unfold Qle. simpl.
  pose proof (Z.sqrt_nonneg (Qnum q * 1000000000000 / Zpos (Qden q))).
  lia.
Qed.

(* ----------------------------------------------------------------- *)
(** ** C2: ties on the timestamp *)

(** Counterexample to C2 as stated.  Two transfers from A to B at the same
    instant: the code keeps the first
    one of the list, "T1", not the one with the largest identifier, "T2". *)
Lemma cycle_representative_tie_counterexample :
  exists F rep,
    _analyze_cycle sqrt_6 tie_detector ["A"; "B"; "C"] 72 = Ok (Some F)
    /\ CycleFinding.transactions F !! 0 = Some rep
    /\ transaction_id rep = "T1"
    /\ ~ claimed_representative
           (edge_txs tie_detector ["A"; "B"; "C"] 0) rep.
Proof.
  eexists. eexists. split; [vm_compute; reflexivity|].
  split; [reflexivity|]. split; [reflexivity|].
  intros [_ H].
  destruct (H (tx "T2" "A" "B" 10000 0)) as [_ Hid].
  { vm_compute. right. left. reflexivity. }
  specialize (Hid eq_refl). vm_compute in Hid. discriminate.
Qed.

(** The amended C2 on the same corpus. *)
Lemma cycle_representative_first_most_recent_witness :
  exists F,
    _analyze_cycle sqrt_6 tie_detector ["A"; "B"; "C"] 72 = Ok (Some F)
    /\ exists rep earlier later,
         CycleFinding.transactions F !! 0 = Some rep
         /\ edge_txs tie_detector ["A"; "B"; "C"] 0
            = earlier ++ rep :: later
         /\ Forall (fun t => timestamp t < timestamp rep)%Z earlier
         /\ Forall (fun t => timestamp t <= timestamp rep)%Z later.
Proof.
  eexists. split; [vm_compute; reflexivity|].
  apply (proj2 (cycle_representative_first_most_recent sqrt_6 tie_detector
                  ["A"; "B"; "C"] 72)).
  - vm_compute. reflexivity.
  - simpl. lia.
Defined.

(* ----------------------------------------------------------------- *)
(** ** C5: a maximal length of zero *)

(** Counterexample to C5 as stated.  With [cycle_max_length] set to 0 the
    cycle of length 3 is reported. *)
Lemma cycle_max_length_zero_counterexample :
  exists F res self',
    detect_money_laundering_cycles sqrt_6 demo_cycles unbounded_detector
      None None None = (Ok res, self')
    /\ In F res
    /\ effective unbounded_detector None "cycle_min_length" = Ok 3%Q
    /\ effective unbounded_detector None "cycle_max_length" = Ok 0%Q
    /\ effective unbounded_detector None "cycle_time_window_hours" = Ok 72%Q
    /\ ~ claimed_cycle_invariant 3 0 72 F.
Proof.
  eexists. eexists. eexists. split; [vm_compute; reflexivity|].
  split; [left; reflexivity|].
  repeat (split; [vm_compute; reflexivity|]).
  intros (_ & _ & _ & H). vm_compute in H. apply H. reflexivity.
Qed.

(** The amended C5 on the demonstration corpus, with the override
    [max_length=5]. *)
Lemma cycle_findings_invariant_witness :
  exists res self',
    detect_money_laundering_cycles sqrt_6 demo_cycles demo
      None (Some 5%Q) None = (Ok res, self')
    /\ res <> []
    /\ exists mn mx tw,
         effective demo None "cycle_min_length" = Ok mn
         /\ effective demo (Some 5%Q) "cycle_max_length" = Ok mx
         /\ effective demo None "cycle_time_window_hours" = Ok tw
         /\ Forall (fun F =>
              cycle_edges_realised F
              /\ (CycleFinding.time_span_hours F <= tw)%Q
              /\ (mn <= inject_Z (Z.of_nat (CycleFinding.length F)))%Q
              /\ (~ (mx == 0)%Q ->
                  (inject_Z (Z.of_nat (CycleFinding.length F)) <= mx)%Q))
              res.
Proof.
  eexists. eexists. split; [vm_compute; reflexivity|].
  split; [discriminate|].
  eapply (cycle_findings_invariant sqrt_6 demo_cycles).
  vm_compute. reflexivity.
Defined.

(* ----------------------------------------------------------------- *)
(** ** C3: an unknown key after a known one *)

(** Counterexample to C3 as stated: [cycle_min_length] is updated before
    the unknown key is met, and stays updated after the failure. *)
Lemma set_detection_params_partial_counterexample :
  let kwargs := [("cycle_min_length", 4%Q); ("unknown_parameter", 1%Q)] in
  fst (set_detection_params init kwargs) = Raise ValueError
  /\ detection_params init !! "cycle_min_length" = Some 3%Q
  /\ detection_params (snd (set_detection_params init kwargs))
     !! "cycle_min_length" = Some 4%Q
  /\ detection_params (snd (set_detection_params init kwargs))
     <> detection_params init.
Proof.
  repeat split; try (vm_compute; reflexivity).
  intros H.
  assert (Hk : detection_params
                 (snd (set_detection_params init
                         [("cycle_min_length", 4%Q);
                          ("unknown_parameter", 1%Q)]))
               !! "cycle_min_length"
               = detection_params init !! "cycle_min_length")
    by (rewrite H; reflexivity).
  vm_compute in Hk. discriminate.
Qed.

(** The amended C3 on a call with a known key, an unknown key and a second
    known key. *)
Lemma set_detection_params_unknown_key_witness :
  let kwargs :=
    [("cycle_min_length", 4%Q); ("unknown_parameter", 1%Q);
     ("cycle_max_length", 7%Q)] in
  let self' := snd (set_detection_params init kwargs) in
  fst (set_detection_params init kwargs) = Raise ValueError
  /\ transactions self' = transactions init
  /\ graph self' = graph init
  /\ detection_results self' = detection_results init
  /\ (forall k, ~ In k (map fst [("cycle_min_length", 4%Q)]) ->
        detection_params self' !! k = detection_params init !! k)
  /\ (List.NoDup (map fst [("cycle_min_length", 4%Q)]) ->
      forall k v, In (k, v) [("cycle_min_length", 4%Q)] ->
        detection_params self' !! k = Some v)
  /\ ([("cycle_min_length", 4%Q)] = [] -> self' = init).
Proof.
  apply (proj2 (proj2 (set_detection_params_unknown_key init
                         [("cycle_min_length", 4%Q);
                          ("unknown_parameter", 1%Q);
                          ("cycle_max_length", 7%Q)]))
           [("cycle_min_length", 4%Q)] "unknown_parameter" 1%Q
           [("cycle_max_length", 7%Q)]).
  - reflexivity.
  - constructor; [|constructor]. vm_compute. eexists. reflexivity.
  - vm_compute. intros [x Hx]. discriminate.
Defined.

(* ----------------------------------------------------------------- *)
(** ** C4, C6, C7: the demonstration corpus *)


Lemma demo_metrics_nonneg (g : DiGraph) (a : string) (m : Metrics) :
  In (a, m) (demo_metrics g) ->
  (0 <= betweenness_centrality m)%Q /\ (0 <= pagerank m)%Q.
Proof.
  intros H. simpl in H.
  repeat (destruct H as [H|H];
          [injection H as <- <-; split; unfold Qle; simpl; lia|]).
  destruct H.
Qed.


(** C6 on the demonstration corpus, with the override
    [time_window_hours=40]. *)
Lemma smurfing_findings_invariant_witness :
  exists res self',
    detect_smurfing sqrt_6 demo None None (Some 40%Q) None = (Ok res, self')
    /\ res <> []
    /\ exists thr tw ar,
         effective demo None "smurfing_threshold" = Ok thr
         /\ effective demo (Some 40%Q) "smurfing_time_window_hours" = Ok tw
         /\ effective demo None "smurfing_amount_ratio" = Ok ar
         /\ Forall (smurfing_invariant sqrt_6 thr tw ar) res.
Proof.
  eexists. eexists. split; [vm_compute; reflexivity|].
  split; [discriminate|].
  eapply (smurfing_findings_invariant sqrt_6 demo _ None None (Some 40%Q)
            None).
  vm_compute. reflexivity.
Defined.

(** C7 on the metrics of the demonstration corpus. *)
Lemma hub_detection_exact_witness :
  let items := demo_metrics demo_graph in
  let degrees := map (fun item => degree_centrality (snd item)) items in
  let mu := np_mean degrees in
  let sigma := np_std sqrt_6 degrees in
  let tau := Qmax 0.1 (mu + 2 * sigma) in
  Forall2
    (fun f item =>
       exists r,
         f = Hub (fst item) (snd item) tau r
         /\ (r == hub_score_spec (snd item) mu sigma)%Q)
    (_detect_hub_anomalies sqrt_6 demo_metrics demo_graph 0.1)
    (List.filter (fun item => Qltb tau (degree_centrality (snd item)))
       items)
  /\ forall a m, In (a, m) items ->
       ((tau < degree_centrality m)%Q
        <-> exists r, In (Hub a m tau r)
                        (_detect_hub_anomalies sqrt_6 demo_metrics
                           demo_graph 0.1)).
Proof.
  apply (hub_detection_exact sqrt_6 demo_metrics demo_graph 0.1).
  - exact sqrt_6_nonneg.
  - apply demo_metrics_nonneg.
Defined.

(** The only hub of the demonstration corpus is "H". *)
Example demo_hub :
  map (fun a => match a with Hub account _ _ _ => account | _ => "" end)
    (_detect_hub_anomalies sqrt_6 demo_metrics demo_graph 0.1) = ["H"].
Proof. vm_compute. reflexivity. Qed.

(* ----------------------------------------------------------------- *)
(** ** C9: findings with the same risk score *)



(* ----------------------------------------------------------------- *)
(** ** C10: an override equal to zero *)

(** C10 on the demonstration corpus. *)
Lemma falsy_override_uses_configured_value_witness :
  effective demo (Some 0%Q) "cycle_max_length" = Ok 10%Q
  /\ detect_smurfing sqrt_6 demo None (Some 0%Q) None None
     = detect_smurfing sqrt_6 demo None None None None
  /\ detect_network_anomalies sqrt_6 demo_metrics demo_communities demo
       None (Some 0%Q) None None
     = detect_network_anomalies sqrt_6 demo_metrics demo_communities demo
         None None None None.
Proof.
  destruct (falsy_override_uses_configured_value sqrt_6 demo_cycles
              demo_metrics demo_communities demo 0%Q)
    as (He & _ & _ & _ & _ & Hs & _ & _ & _ & Hn & _).
  - reflexivity.
  - split; [rewrite He; vm_compute; reflexivity|].
    split; [apply Hs | apply Hn].
Defined.

(* ----------------------------------------------------------------- *)
(** ** C1: the override of the minimal number of transactions *)

(** C1, where the code departs from it.  With the default configuration
    (a minimum of five transactions) and the override [min_transactions=3],
    an account with three equal inbound transfers within two hours passes
    the first test, made with the override, but its window of three
    transactions is rejected by the window test, made with the configured
    five: nothing is reported.  Configuring three as the minimum reports
    the account. *)
Theorem smurfing_min_transactions_override_ignored_by_window_test :
  fst (detect_smurfing sqrt_6
         (loaded three_deposits deposits_graph default_params)
         None (Some 3%Q) None None) = Ok []
  /\ exists F,
       fst (detect_smurfing sqrt_6
              (loaded three_deposits deposits_graph
                 (<["smurfing_min_transactions" := 3%Q]> default_params))
              None None None None) = Ok [F]
       /\ SmurfingFinding.pivot_account F = "P"
       /\ SmurfingFinding.num_transactions F = 3.
Proof.
  split; [vm_compute; reflexivity|].
  eexists. split; [vm_compute; reflexivity|].
  split; reflexivity.
Qed.

(* ----------------------------------------------------------------- *)
(** ** C8: one burst per sender *)

(** The window anchored at "V1" holds one transaction, the one anchored at
    "V2" holds four, the one at "V3" holds three: with a threshold of three
    only the window of "V2" is reported. *)
Example burst_first_window_only :
  match _detect_burst_anomalies five_in_a_row 3 2 with
  | Ok anomalies =>
      map (fun a =>
             match a with
             | Burst account _ _ txs _ => (account, map transaction_id txs)
             | _ => ("", [])
             end) anomalies
  | Raise _ => []
  end = [("S", ["V2"; "V3"; "V4"; "V5"])].
Proof. vm_compute. reflexivity. Qed.
